(** * Metric computation pipeline of [compute_metric.py]

    A shallow embedding of [optimization/scripts/compute_metric.py]: the
    boundary-condition reader, the four metric evaluators and the
    command-line entry point, followed by the properties the specification
    states about them.

    Conventions of the embedding.
    - Python [float] is an abstract type [F] with the operations the script
      uses (class [PyFloat]).  Two instances are given: exact rationals [Q]
      (rounding, infinities and NaN are outside that instance) and the
      kernel's binary64 numbers.  What depends on control flow only (the
      boundary-condition reader, the entry point, the branch each test of
      an evaluator selects) is proved for any [F], hence for binary64; what
      depends on arithmetic (bounds, the reading of a test on a difference
      as a comparison of its operands, nearest-time selection) is proved
      over [Q], and the concrete scenarios of the specification are
      replayed on binary64 bit for bit.
    - Python exceptions, the text written to the two output streams and the
      divisions the script performs are effects of the monad [Eff]: a
      computation yields the list of events it produced and either a value
      or the exception it raised.
    - What ParaView, VTK and foamlib deliver (block trees, integrated rows,
      parsed dictionaries) is input data of the model. *)

From Stdlib Require Import ZArith QArith Qabs Lqa Lia List String Ascii Bool Floats.
From stdpp Require Import gmap strings.
Import ListNotations.

Set Warnings "-register-all,-inexact-float".

Local Open Scope string_scope.
Local Open Scope list_scope.

(** ** Python floats *)

Class PyFloat (F : Type) := {
  fsub : F -> F -> F;            (* x - y *)
  fdiv : F -> F -> F;            (* x / y for a divisor that is not zero *)
  fabs : F -> F;                 (* abs(x) *)
  fleb : F -> F -> bool;         (* x <= y *)
  fltb : F -> F -> bool;         (* x < y *)
  fis_zero : F -> bool;          (* x == 0: the test of float division *)
  lit_0 : F;                     (* 0 and 0.0 *)
  lit_1 : F;                     (* 1.0 *)
  lit_999 : F;                   (* 999.0 *)
  lit_0_1561 : F;                (* 0.1561 *)
  lit_300 : F;                   (* 300.0 *)
  lit_1em6 : F                   (* 1e-6 *)
}.

Definition Qltb (x y : Q) : bool := negb (Qle_bool y x).

#[global] Instance PyFloat_Q : PyFloat Q := {|
  fsub := Qminus;
  fdiv := Qdiv;
  fabs := Qabs;
  fleb := Qle_bool;
  fltb := Qltb;
  fis_zero := fun x => Qeq_bool x 0;
  lit_0 := 0%Q;
  lit_1 := 1%Q;
  lit_999 := 999%Q;
  lit_0_1561 := (1561 # 10000)%Q;
  lit_300 := 300%Q;
  lit_1em6 := (1 # 1000000)%Q
|}.

#[global] Instance PyFloat_binary64 : PyFloat float := {|
  fsub := PrimFloat.sub;
  fdiv := PrimFloat.div;
  fabs := PrimFloat.abs;
  fleb := PrimFloat.leb;
  fltb := PrimFloat.ltb;
  fis_zero := fun x => PrimFloat.eqb x 0%float;
  lit_0 := 0%float;
  lit_1 := 1%float;
  lit_999 := 999%float;
  lit_0_1561 := 0.1561%float;
  lit_300 := 300%float;
  lit_1em6 := 1e-6%float
|}.

(** ** Strings: [str.lower], [in], [startswith], [str.split] *)

Definition lower_ascii (c : ascii) : ascii :=
  let n := nat_of_ascii c in
  if (Nat.leb 65 n && Nat.leb n 90)%bool then ascii_of_nat (n + 32) else c.

Fixpoint lower (s : string) : string :=
  match s with
  | EmptyString => EmptyString
  | String c r => String (lower_ascii c) (lower r)
  end.

(** [startswith p s] is Python's [s.startswith(p)]. *)
Fixpoint startswith (p s : string) : bool :=
  match p with
  | EmptyString => true
  | String a p' =>
      match s with
      | EmptyString => false
      | String b s' => (Ascii.eqb a b && startswith p' s')%bool
      end
  end.

(** [str_in needle hay] is Python's [needle in hay] on two strings. *)
Fixpoint str_in (needle hay : string) : bool :=
  (startswith needle hay ||
   match hay with
   | EmptyString => false
   | String _ r => str_in needle r
   end)%bool.

(** [str_split sep s] is Python's [s.split(sep)] for a one-character separator. *)
Fixpoint str_split (sep : ascii) (s : string) : list string :=
  match s with
  | EmptyString => [EmptyString]
  | String c r =>
      if Ascii.eqb c sep then EmptyString :: str_split sep r
      else match str_split sep r with
           | [] => [String c EmptyString]
           | w :: ws => String c w :: ws
           end
  end.

(** ** Exceptions, events and the effect monad *)

Section Effects.
Context {F : Type}.

(** The texts of the [ValueError]s the script raises, one per raise site. *)
Inductive message :=
| OutletPatchNotFound (blocks : list string)
| OutletBlockNotFound
| CH4NotFoundAtOutlet (cell_arrays point_arrays : list string)
| IntegrateCH4Failed
| IntegrateAreaFailed
| InvalidOutletArea (area : F)
| CH4NotInIntegratedData
| TNotInCellDataInformation
| TNotInIntegratedData
| VolumeNotInIntegratedData
| InvalidVolume (volume : F)
| UnknownMetric (metric_name : string)
| NoTimeSteps
| CouldNotConvertToFloat (s : string).

Inductive exn :=
| ValueError (m : message)
| TypeError
| KeyError
| IndexError
| AttributeError
| ZeroDivisionError
| FileNotFoundError
| OSError
| SystemExit (code : Z).

(** [SystemExit] derives from [BaseException] only: [except Exception]
    does not catch it. *)
Definition is_Exception (e : exn) : bool :=
  match e with
  | SystemExit _ => false
  | _ => true
  end.

(** A value held by a Python variable of the script that is either a
    float or [None]. *)
Inductive pyval :=
| PFloat (x : F)
| PNone.

(** The divisions of the script, by the line that performs them. *)
Inductive div_site :=
| OutletAverage        (* ch4_integrated / area *)
| InletRatio           (* ch4_outlet / ch4_inlet *)
| VolumeAverage        (* ch4_integrated / volume, T_integrated / volume *)
| PatternFactorRatio   (* (T_max - T_avg) / denominator *)
| TemperatureRiseRatio (* (T_avg - T_inlet) / denominator *).

(** The lines the script prints. *)
Inductive line :=
| UsageLine
| AvailableMetricsLine
| OptionalTimeLine
| WarningLine (requested_time closest_time : F)
| ErrorLine (e : exn)
| TracebackHeader
| Traceback (e : exn)
| ValueLine (value : F).

Inductive event :=
| Div (site : div_site) (x y : F)
| Stdout (l : line)
| Stderr (l : line).

Inductive outcome (A : Type) :=
| Return (a : A)
| Raise (e : exn).
Arguments Return {A} a.
Arguments Raise {A} e.

Definition Eff (A : Type) : Type := list event * outcome A.

Definition ret {A} (a : A) : Eff A := ([], Return a).
Definition raise {A} (e : exn) : Eff A := ([], Raise e).
Definition emit (ev : event) : Eff unit := ([ev], Return tt).

Definition bind {A B} (c : Eff A) (k : A -> Eff B) : Eff B :=
  match c with
  | (tr, Return a) => let '(tr', r) := k a in (tr ++ tr', r)
  | (tr, Raise e) => (tr, Raise e)
  end.

(** [try: body  except Exception as e: handler e]. *)
Definition try_except {A} (body : Eff A) (handler : exn -> Eff A) : Eff A :=
  match body with
  | (tr, Raise e) =>
      if is_Exception e then let '(tr', r) := handler e in (tr ++ tr', r)
      else (tr, Raise e)
  | finished => finished
  end.

Definition trace {A} (c : Eff A) : list event := fst c.
Definition result {A} (c : Eff A) : outcome A := snd c.
End Effects.

Arguments message : clear implicits.
Arguments exn : clear implicits.
Arguments pyval : clear implicits.
Arguments line : clear implicits.
Arguments event : clear implicits.
Arguments outcome : clear implicits.
Arguments Eff : clear implicits.
Arguments Return {F A} a.
Arguments Raise {F A} e.

Declare Scope eff_scope.
Delimit Scope eff_scope with eff.
Notation "x <- c ;; k" := (bind c (fun x => k))
  (at level 100, c at next level, right associativity) : eff_scope.
Notation "c ;;; k" := (bind c (fun _ => k))
  (at level 100, right associativity) : eff_scope.

Local Open Scope eff_scope.

(** ** The data the script reads *)

Section Program.
Context {F : Type} `{PyFloat F}.

(** *** Parsed OpenFOAM dictionaries (what foamlib hands back) *)

Inductive FoamData :=
| FNum (x : F)                          (* a number *)
| FStr (s : string)                     (* a word or an unparsed entry *)
| FSeq (l : list FoamData)              (* a vector, list or array *)
| FDict (d : gmap string FoamData).     (* a sub-dictionary *)

(** A field file that exists on disk: reading it fails (foamlib raises),
    or it parses to its top-level dictionary. *)
Inductive FoamFile :=
| Unreadable
| Parsed (d : gmap string FoamData).

(** *** VTK data (what ParaView hands back) *)

(** Arrays by name, in the order VTK lists them. *)
Definition FieldData (V : Type) : Type := list (string * V).

Fixpoint GetArray {V} (name : string) (fd : FieldData V) : option V :=
  match fd with
  | [] => None
  | (n, a) :: rest => if String.eqb n name then Some a else GetArray name rest
  end.

Definition GetArrayNames {V} (fd : FieldData V) : list string := map fst fd.

(** A leaf block: its cell and point arrays, and the single row that
    [vtkIntegrateAttributes] computes from it. *)
Record vtkDataSet := {
  GetCellData : FieldData (list F);
  GetPointData : FieldData (list F);
  IntegratedCellData : FieldData F;
  IntegratedPointData : FieldData F
}.

(** [GetMetaData(i)] is missing, or is present with or without a NAME. *)
Inductive metadata :=
| NoMetaData
| MetaData (name : option string).

Inductive vtkDataObject :=
| DataSet (d : vtkDataSet)
| MultiBlock (blocks : list (metadata * option vtkDataObject)).

(** The reader's pipeline at the selected time. *)
Record CaseReader := {
  MeshRegions : list string;
  (* servermanager.Fetch(case_reader): the top-level blocks *)
  Fetch : list (metadata * option vtkDataObject);
  (* GetDataInformation().GetCellDataInformation(): name -> GetComponentRange(0) *)
  CellDataInformation : FieldData (F * F);
  (* servermanager.Fetch(IntegrateVariables(case_reader)).GetCellData(), row 0 *)
  IntegrateVariables : FieldData F
}.

Definition set_MeshRegions (regions : list string) (r : CaseReader) : CaseReader :=
  {| MeshRegions := regions;
     Fetch := Fetch r;
     CellDataInformation := CellDataInformation r;
     IntegrateVariables := IntegrateVariables r |}.

(** What [OpenFOAMReader] exposes of a case. *)
Record OpenFOAMReader := {
  TimestepValues : list F;
  UpdatePipeline : F -> CaseReader
}.

(** The case directory on disk. *)
Record CaseDir := {
  dir_exists : bool;                               (* case_dir.exists() *)
  processor_dirs : list string;                    (* case_dir.glob("processor*") *)
  file_at : string -> string -> option FoamFile;   (* subdirectory, field name *)
  decomposed_case : OpenFOAMReader;                (* opened by directory *)
  reconstructed_case : OpenFOAMReader              (* opened through case.foam *)
}.

(** The Python environment: whether foamlib imported, and [float] on
    strings. *)
Variable FOAMLIB_AVAILABLE : bool.
Variable float_of_string : string -> option F.

(** ** Python operations on the values above *)

(** [key in container] for a string [key]. *)
Definition py_contains (key : string) (container : FoamData) : Eff F bool :=
  match container with
  | FDict d => ret (bool_decide (is_Some (d !! key)))
  | FSeq l =>
      ret (existsb (fun x => match x with FStr s => String.eqb s key | _ => false end) l)
  | FStr s => ret (str_in key s)
  | FNum _ => raise TypeError
  end.

(** [container[key]] for a string [key]. *)
Definition py_getitem (container : FoamData) (key : string) : Eff F FoamData :=
  match container with
  | FDict d => match d !! key with Some v => ret v | None => raise KeyError end
  | _ => raise TypeError
  end.

(** [container[0]]. *)
Definition py_getitem_0 (container : FoamData) : Eff F FoamData :=
  match container with
  | FSeq (x :: _) => ret x
  | FSeq [] => raise IndexError
  | FDict _ => raise KeyError
  | _ => raise TypeError
  end.

(** [hasattr(value, '__iter__')] and [isinstance(value, str)]. *)
Definition has_iter (value : FoamData) : bool :=
  match value with FNum _ => false | _ => true end.
Definition is_str (value : FoamData) : bool :=
  match value with FStr _ => true | _ => false end.

(** [len(value)]. *)
Definition py_len (value : FoamData) : Eff F nat :=
  match value with
  | FSeq l => ret (length l)
  | FDict d => ret (size d)
  | FStr s => ret (String.length s)
  | FNum _ => raise TypeError
  end.

(** [float(value)]. *)
Definition py_float (value : FoamData) : Eff F F :=
  match value with
  | FNum x => ret x
  | FStr s =>
      match float_of_string s with
      | Some x => ret x
      | None => raise (ValueError (CouldNotConvertToFloat s))
      end
  | _ => raise TypeError
  end.

(** [float(s)] for a string. *)
Definition float_of_str (s : string) : Eff F F := py_float (FStr s).

(** A float operand taken from a variable that may hold [None]. *)
Definition as_float (v : pyval F) : Eff F F :=
  match v with
  | PFloat x => ret x
  | PNone => raise TypeError
  end.

(** [x / y] on floats. *)
Definition truediv (site : div_site) (x y : F) : Eff F F :=
  emit (Div site x y) ;;;
  if fis_zero y then raise ZeroDivisionError else ret (fdiv x y).

(** ** [read_boundary_condition] *)

(** Where the lookup part of the function ends: at one of the
    [return fallback_value] statements, or with [value] bound. *)
Inductive lookup :=
| UseFallback
| Found (value : FoamData).

Definition file_getitem (foam_file : FoamFile) (key : string) : Eff F FoamData :=
  match foam_file with
  | Unreadable => raise OSError
  | Parsed d => match d !! key with Some v => ret v | None => raise KeyError end
  end.

(* lines 55-57: the file that is opened, the one under 0.orig before the
   one under 0; None when neither exists *)
Definition field_file (case_dir : CaseDir) (field_name : string) : option FoamFile :=
  match file_at case_dir "0.orig" field_name with
  | Some f => Some f
  | None => file_at case_dir "0" field_name
  end.

(* lines 55-79 *)
Definition resolve_value (case_dir : CaseDir) (field_name patch_name : string)
  : Eff F lookup :=
  match field_file case_dir field_name with
  | None => ret UseFallback
  | Some foam_file =>
      boundary_field <- file_getitem foam_file "boundaryField" ;;
      has_patch <- py_contains patch_name boundary_field ;;
      if negb has_patch then ret UseFallback
      else
        patch_data <- py_getitem boundary_field patch_name ;;
        has_value <- py_contains "value" patch_data ;;
        if has_value then
          value <- py_getitem patch_data "value" ;; ret (Found value)
        else
          has_inletValue <- py_contains "inletValue" patch_data ;;
          if has_inletValue then
            value <- py_getitem patch_data "inletValue" ;; ret (Found value)
          else ret UseFallback
  end.

(* lines 82-87 *)
Definition convert_value (value : FoamData) : Eff F (pyval F) :=
  if (has_iter value && negb (is_str value))%bool then
    n <- py_len value ;;
    if Nat.ltb 0 n then
      if Nat.eqb n 1 then
        first <- py_getitem_0 value ;; x <- py_float first ;; ret (PFloat x)
      else
        x <- py_float value ;; ret (PFloat x)
    else ret PNone  (* no return statement is reached *)
  else
    x <- py_float value ;; ret (PFloat x).

(* the body of the try block, lines 55-87 *)
Definition read_boundary_condition_try (case_dir : CaseDir)
    (field_name patch_name : string) (fallback_value : pyval F) : Eff F (pyval F) :=
  found <- resolve_value case_dir field_name patch_name ;;
  match found with
  | UseFallback => ret fallback_value
  | Found value => convert_value value
  end.

Definition read_boundary_condition (case_dir : CaseDir)
    (field_name patch_name : string) (fallback_value : pyval F) : Eff F (pyval F) :=
  if negb FOAMLIB_AVAILABLE then ret fallback_value
  else
    try_except
      (read_boundary_condition_try case_dir field_name patch_name fallback_value)
      (fun e => ret fallback_value).

(** ** [get_inlet_conditions] *)

Record inlet_conditions := {
  CH4_inlet : pyval F;
  T_inlet : pyval F
}.

Definition get_inlet_conditions (case_dir : CaseDir) : Eff F inlet_conditions :=
  ch4_inlet <- read_boundary_condition case_dir "CH4" "inletFuel" (PFloat lit_0_1561) ;;
  t_inlet <- read_boundary_condition case_dir "T" "inletAir" (PFloat lit_300) ;;
  ret {| CH4_inlet := ch4_inlet; T_inlet := t_inlet |}.

(** ** [get_combustion_efficiency] *)

(* lines 131-137: the first mesh region whose lower-cased name contains
   'outlet' *)
Fixpoint find_outlet_block_name (blocks : list string) : option string :=
  match blocks with
  | [] => None
  | block :: rest =>
      if str_in "outlet" (lower block) then Some block
      else find_outlet_block_name rest
  end.

(* lines 151 and 161: the name of a block, and its [.lower()] *)
Definition lower_block_name (meta : metadata) : Eff F string :=
  match meta with
  | NoMetaData => ret (lower "unnamed")
  | MetaData (Some name) => ret (lower name)
  | MetaData None => raise AttributeError  (* None has no lower() *)
  end.

(* lines 159-164: the inner loop; the result is [outlet_block] after it *)
Fixpoint search_sub_blocks (sub_blocks : list (metadata * option vtkDataObject))
  : Eff F (option vtkDataObject) :=
  match sub_blocks with
  | [] => ret None
  | (meta, sub_block) :: rest =>
      sub_name <- lower_block_name meta ;;
      if str_in "outlet" sub_name then ret sub_block
      else search_sub_blocks rest
  end.

(* lines 148-166: the outer loop; the result is [outlet_block] after it.
   The test [if outlet_block:] of line 165 holds for every block that is
   not None. *)
Fixpoint find_outlet_block (outlet_block_name : string)
    (full_data : list (metadata * option vtkDataObject))
  : Eff F (option vtkDataObject) :=
  match full_data with
  | [] => ret None
  | (meta, block) :: rest =>
      block_name <- lower_block_name meta ;;
      if str_in (lower outlet_block_name) block_name then ret block
      else
        match block with
        | Some (MultiBlock sub_blocks) =>
            outlet_block <- search_sub_blocks sub_blocks ;;
            match outlet_block with
            | Some found => ret (Some found)
            | None => find_outlet_block outlet_block_name rest
            end
        | _ => find_outlet_block outlet_block_name rest
        end
  end.

(* lines 123-211: from the reader to [(ch4_integrated, area)] *)
Definition integrate_outlet (case_reader : CaseReader) : Eff F (F * F) :=
  let blocks := MeshRegions case_reader in
  match find_outlet_block_name blocks with
  | None => raise (ValueError (OutletPatchNotFound blocks))
  | Some outlet_block_name =>
      outlet_block <- find_outlet_block outlet_block_name (Fetch case_reader) ;;
      match outlet_block with
      | None => raise (ValueError OutletBlockNotFound)
      | Some (MultiBlock _) => raise AttributeError  (* no GetCellData *)
      | Some (DataSet outlet) =>
          let cell_data := GetCellData outlet in
          let point_data := GetPointData outlet in
          let ch4_array :=
            match GetArray "CH4" cell_data with
            | Some a => Some a
            | None => GetArray "CH4" point_data
            end in
          match ch4_array with
          | None =>
              raise (ValueError (CH4NotFoundAtOutlet (GetArrayNames cell_data)
                                                     (GetArrayNames point_data)))
          | Some _ =>
              let integrated_cell_data := IntegratedCellData outlet in
              let integrated_point_data := IntegratedPointData outlet in
              let ch4_integrated_array :=
                match GetArray "CH4" integrated_cell_data with
                | Some a => Some a
                | None => GetArray "CH4" integrated_point_data
                end in
              match ch4_integrated_array with
              | None => raise (ValueError IntegrateCH4Failed)
              | Some ch4_integrated =>
                  let area_array :=
                    match GetArray "Area" integrated_cell_data with
                    | Some a => Some a
                    | None => GetArray "Area" integrated_point_data
                    end in
                  match area_array with
                  | None => raise (ValueError IntegrateAreaFailed)
                  | Some area => ret (ch4_integrated, area)
                  end
              end
          end
      end
  end.

Definition get_combustion_efficiency (case_reader : CaseReader) (case_dir : CaseDir)
  : Eff F F :=
  inlet_conditions <- get_inlet_conditions case_dir ;;
  let ch4_inlet := CH4_inlet inlet_conditions in
  integrated <- integrate_outlet case_reader ;;
  let '(ch4_integrated, area) := integrated in
  if fleb area lit_0 then raise (ValueError (InvalidOutletArea area))
  else
    ch4_outlet <- truediv OutletAverage ch4_integrated area ;;
    ch4_inlet <- as_float ch4_inlet ;;
    ratio <- truediv InletRatio ch4_outlet ch4_inlet ;;
    let efficiency := fsub lit_1 ratio in
    ret efficiency.

(** ** [get_ch4_domain_average] *)

Definition get_ch4_domain_average (case_reader : CaseReader) (case_dir : CaseDir)
  : Eff F F :=
  let cell_data := IntegrateVariables case_reader in
  match GetArray "CH4" cell_data with
  | None => raise (ValueError CH4NotInIntegratedData)
  | Some ch4_integrated =>
      match GetArray "Volume" cell_data with
      | None => raise (ValueError VolumeNotInIntegratedData)
      | Some volume =>
          if fleb volume lit_0 then raise (ValueError (InvalidVolume volume))
          else
            ch4_avg <- truediv VolumeAverage ch4_integrated volume ;;
            ret ch4_avg
      end
  end.

(** ** [get_pattern_factor] and [get_temperature_rise_efficiency] *)

(* lines 287-322 and 350-385, the same text in both functions: from the
   reader to [(T_max, T_avg)] *)
Definition temperature_statistics (case_reader : CaseReader) : Eff F (F * F) :=
  match GetArray "T" (CellDataInformation case_reader) with
  | None => raise (ValueError TNotInCellDataInformation)
  | Some T_range =>
      let T_max := snd T_range in
      let cell_data := IntegrateVariables case_reader in
      match GetArray "T" cell_data with
      | None => raise (ValueError TNotInIntegratedData)
      | Some T_integrated =>
          match GetArray "Volume" cell_data with
          | None => raise (ValueError VolumeNotInIntegratedData)
          | Some volume =>
              if fleb volume lit_0 then raise (ValueError (InvalidVolume volume))
              else
                T_avg <- truediv VolumeAverage T_integrated volume ;;
                ret (T_max, T_avg)
          end
      end
  end.

Definition get_pattern_factor (case_reader : CaseReader) (case_dir : CaseDir)
  : Eff F F :=
  statistics <- temperature_statistics case_reader ;;
  let '(T_max, T_avg) := statistics in
  inlet_conditions <- get_inlet_conditions case_dir ;;
  T_inlet <- as_float (T_inlet inlet_conditions) ;;
  let denominator := fsub T_avg T_inlet in
  if fleb denominator lit_0 then ret lit_999
  else
    PF <- truediv PatternFactorRatio (fsub T_max T_avg) denominator ;;
    ret PF.

Definition get_temperature_rise_efficiency (case_reader : CaseReader)
    (case_dir : CaseDir) : Eff F F :=
  statistics <- temperature_statistics case_reader ;;
  let '(T_max, T_avg) := statistics in
  inlet_conditions <- get_inlet_conditions case_dir ;;
  T_inlet <- as_float (T_inlet inlet_conditions) ;;
  let denominator := fsub T_max T_inlet in
  if fleb denominator lit_0 then ret lit_0
  else
    eta_T <- truediv TemperatureRiseRatio (fsub T_avg T_inlet) denominator ;;
    ret eta_T.

(** ** [main] *)

Definition evaluator : Type := CaseReader -> CaseDir -> Eff F F.

Definition metrics : list (string * evaluator) :=
  [ ("combustion_efficiency", get_combustion_efficiency);
    ("ch4_domain_average", get_ch4_domain_average);
    ("pattern_factor", get_pattern_factor);
    ("temperature_rise", get_temperature_rise_efficiency) ].

Fixpoint metrics_get (metric_name : string) (table : list (string * evaluator))
  : option evaluator :=
  match table with
  | [] => None
  | (name, f) :: rest =>
      if String.eqb name metric_name then Some f else metrics_get metric_name rest
  end.

(* lines 423-429: the optional fourth argument *)
Definition parse_time_argument (argv : list string) : Eff F (option F) :=
  if Nat.eqb (length argv) 4 then
    match nth_error argv 3 with
    | None => raise IndexError
    | Some time_arg =>
        if startswith "--time=" time_arg then
          match nth_error (str_split "=" time_arg) 1 with
          | None => raise IndexError
          | Some text => t <- float_of_str text ;; ret (Some t)
          end
        else raise (SystemExit 1)
    end
  else ret None.

(** [min(first :: rest, key=key)]: a later element replaces the best one
    only when its key is strictly smaller. *)
Fixpoint min_by_key (key : F -> F) (best : F) (rest : list F) : F :=
  match rest with
  | [] => best
  | t :: rest' =>
      if fltb (key t) (key best) then min_by_key key t rest'
      else min_by_key key best rest'
  end.

(* lines 460-477 *)
Definition select_time (requested_time : option F) (time_values : list F)
  : Eff F F :=
  match time_values with
  | [] => raise (ValueError NoTimeSteps)
  | first :: others =>
      match requested_time with
      | Some requested_time =>
          let closest_time :=
            min_by_key (fun t => fabs (fsub t requested_time)) first others in
          (if fltb lit_1em6 (fabs (fsub closest_time requested_time))
           then emit (Stderr (WarningLine requested_time closest_time))
           else ret tt) ;;;
          ret closest_time
      | None => ret (List.last others first)  (* time_values[-1] *)
      end
  end.

(* the body of the try block, lines 405-486 *)
Definition main_try (argv : list string) (filesystem : string -> CaseDir)
  : Eff F unit :=
  if (Nat.ltb (length argv) 3 || Nat.ltb 4 (length argv))%bool then
    emit (Stderr UsageLine) ;;;
    emit (Stderr AvailableMetricsLine) ;;;
    emit (Stderr OptionalTimeLine) ;;;
    raise (SystemExit 1)
  else
    match nth_error argv 1, nth_error argv 2 with
    | Some path, Some metric_name =>
        let case_dir := filesystem path in
        requested_time <- parse_time_argument argv ;;
        if negb (dir_exists case_dir) then raise FileNotFoundError
        else
          match metrics_get metric_name metrics with
          | None => raise (ValueError (UnknownMetric metric_name))
          | Some metric =>
              let reader :=
                match processor_dirs case_dir with
                | _ :: _ => decomposed_case case_dir
                | [] => reconstructed_case case_dir
                end in
              use_time <- select_time requested_time (TimestepValues reader) ;;
              let case_reader :=
                set_MeshRegions
                  ["internalMesh"; "patch/inletAir"; "patch/inletFuel"; "patch/outlet"]
                  (UpdatePipeline reader use_time) in
              value <- metric case_reader case_dir ;;
              emit (Stdout (ValueLine value))
          end
    | _, _ => raise IndexError
    end.

(* lines 488-492 *)
Definition main_except (e : exn F) : Eff F unit :=
  emit (Stderr (ErrorLine e)) ;;;
  emit (Stderr TracebackHeader) ;;;
  emit (Stderr (Traceback e)) ;;;
  raise (SystemExit 1).

Definition main (argv : list string) (filesystem : string -> CaseDir) : Eff F unit :=
  try_except (main_try argv filesystem) main_except.

(** *** The process as seen from outside *)

Fixpoint stdout_of (tr : list (event F)) : list (line F) :=
  match tr with
  | [] => []
  | Stdout l :: rest => l :: stdout_of rest
  | _ :: rest => stdout_of rest
  end.

Fixpoint stderr_of (tr : list (event F)) : list (line F) :=
  match tr with
  | [] => []
  | Stderr l :: rest => l :: stderr_of rest
  | _ :: rest => stderr_of rest
  end.

Record process := {
  exit_code : Z;
  stdout : list (line F);
  stderr : list (line F)
}.

(** The interpreter ends with status 0 when [main] returns, with the
    status carried by a [SystemExit], and with status 1 and a traceback
    for any other exception that leaves [main]. *)
Definition run (argv : list string) (filesystem : string -> CaseDir) : process :=
  let '(tr, r) := main argv filesystem in
  match r with
  | Return _ =>
      {| exit_code := 0; stdout := stdout_of tr; stderr := stderr_of tr |}
  | Raise (SystemExit code) =>
      {| exit_code := code; stdout := stdout_of tr; stderr := stderr_of tr |}
  | Raise e =>
      {| exit_code := 1; stdout := stdout_of tr;
         stderr := stderr_of tr ++ [Traceback e] |}
  end.
End Program.

(** ** Predicates used in the statements *)

Section Predicates.
Context {F : Type}.

(** A computation whose events all satisfy [Pev] and whose exception, if
    it raises one, satisfies [Pexn]. *)
Definition obeys {A} (Pev : event F -> Prop) (Pexn : exn F -> Prop)
    (c : Eff F A) : Prop :=
  Forall Pev (trace c) /\ forall e, result c = Raise e -> Pexn e.

Definition no_event : event F -> Prop := fun _ => False.
Definition any_event : event F -> Prop := fun _ => True.
Definition any_exn : exn F -> Prop := fun _ => True.
Definition caught : exn F -> Prop := fun e => is_Exception e = true.
Definition caught_or_exit_1 : exn F -> Prop :=
  fun e => is_Exception e = true \/ e = SystemExit 1.

Definition not_stdout (ev : event F) : Prop :=
  match ev with Stdout _ => False | _ => True end.

Definition is_division (ev : event F) : Prop :=
  match ev with Div _ _ _ => True | _ => False end.

(** The three situations in which the specification promises the
    fallback. *)
Definition file_absent (case_dir : @CaseDir F) (field_name : string) : Prop :=
  field_file case_dir field_name = None.

Definition patch_absent (case_dir : @CaseDir F) (field_name patch_name : string)
  : Prop :=
  exists top boundary_field,
    field_file case_dir field_name = Some (Parsed top) /\
    top !! "boundaryField" = Some (FDict boundary_field) /\
    boundary_field !! patch_name = None.

Definition patch_entries (case_dir : @CaseDir F) (field_name patch_name : string)
    (patch_data : gmap string FoamData) : Prop :=
  exists top boundary_field,
    field_file case_dir field_name = Some (Parsed top) /\
    top !! "boundaryField" = Some (FDict boundary_field) /\
    boundary_field !! patch_name = Some (FDict patch_data).

Definition value_keys_absent (case_dir : @CaseDir F) (field_name patch_name : string)
  : Prop :=
  exists patch_data,
    patch_entries case_dir field_name patch_name patch_data /\
    patch_data !! "value" = None /\
    patch_data !! "inletValue" = None.

(** What the body of [main] leaves behind: when it returns, exactly the
    value line on standard output; when it raises, nothing on standard
    output, and the exception is an [Exception] or [SystemExit(1)]. *)
Definition prints_value_or_fails {A} (c : Eff F A) : Prop :=
  match result c with
  | Return _ => exists value, stdout_of (trace c) = [ValueLine value]
  | Raise e => stdout_of (trace c) = [] /\ caught_or_exit_1 e
  end.

(** The failure report of the specification's command-line contract:
    status 1, an error line and the trace of the same exception on
    standard error, nothing on standard output. *)
Definition reports_failure (p : @process F) : Prop :=
  exit_code p = 1%Z /\
  stdout p = [] /\
  exists e, In (ErrorLine e) (stderr p) /\ In (Traceback e) (stderr p).

(** [value] is iterable and not a string, with [n] components. *)
Definition iterable_of_length (value : @FoamData F) (n : nat) : Prop :=
  match value with
  | FSeq l => length l = n
  | FDict d => size d = n
  | _ => False
  end.
End Predicates.

(** A division by an integrated measure (outlet area or domain volume)
    has a divisor for which the script's test [measure <= 0] is false. *)
Definition measure_divisor_checked {F} `{PyFloat F} (ev : event F) : Prop :=
  match ev with
  | Div OutletAverage _ y => fleb y lit_0 = false
  | Div VolumeAverage _ y => fleb y lit_0 = false
  | _ => True
  end.

(** The same over the rationals: the divisor is positive. *)
Definition measure_divisor_positive (ev : event Q) : Prop :=
  match ev with
  | Div OutletAverage _ y => (0 < y)%Q
  | Div VolumeAverage _ y => (0 < y)%Q
  | _ => True
  end.

(** ** Scenarios

    Concrete cases on which the statements below are exercised. *)

(** [float] on the strings of the scenarios: it reads an optional sign,
    digits and an optional fractional part, and rejects words.  (Exponents,
    infinities and NaN, which Python reads too, do not occur in the
    scenarios.) *)
Definition digit_of (c : ascii) : option Z :=
  let n := nat_of_ascii c in
  if (Nat.leb 48 n && Nat.leb n 57)%bool then Some (Z.of_nat (n - 48)) else None.

Fixpoint parse_digits (s : string) (acc : Z) (scale : positive)
    (after_point any_digit : bool) : option Q :=
  match s with
  | EmptyString => if any_digit then Some (acc # scale) else None
  | String c r =>
      if Ascii.eqb c "."%char then
        if after_point then None else parse_digits r acc scale true any_digit
      else
        match digit_of c with
        | None => None
        | Some d =>
            parse_digits r (10 * acc + d)%Z
              (if after_point then (10 * scale)%positive else scale)
              after_point true
        end
  end.

Definition parse_decimal (s : string) : option Q :=
  match s with
  | String "-"%char r => option_map Qopp (parse_digits r 0 1 false false)
  | String "+"%char r => parse_digits r 0 1 false false
  | _ => parse_digits s 0 1 false false
  end.

Definition empty_pipeline {F} : @CaseReader F :=
  {| MeshRegions := []; Fetch := []; CellDataInformation := [];
     IntegrateVariables := [] |}.

Definition reader_of {F} (times : list F) (data : @CaseReader F) : @OpenFOAMReader F :=
  {| TimestepValues := times; UpdatePipeline := fun _ => data |}.

(** A reconstructed case with the given boundary-condition files, time
    series and pipeline data. *)
Definition case_of {F} (files : string -> string -> option (@FoamFile F))
    (times : list F) (data : @CaseReader F) : @CaseDir F :=
  {| dir_exists := true;
     processor_dirs := [];
     file_at := files;
     decomposed_case := reader_of times data;
     reconstructed_case := reader_of times data |}.

(** A field file with one patch that has one entry. *)
Definition patch_file {F} (patch_name key : string) (value : @FoamData F)
  : @FoamFile F :=
  Parsed {[ "boundaryField" := FDict {[ patch_name := FDict {[ key := value ]} ]} ]}.

(** The only boundary-condition file is [0/CH4], with the single entry
    [key value] under [inletFuel]. *)
Definition ch4_only {F} (key : string) (value : @FoamData F)
  : string -> string -> option (@FoamFile F) :=
  fun subdirectory field_name =>
    if (String.eqb subdirectory "0" && String.eqb field_name "CH4")%bool
    then Some (patch_file "inletFuel" key value)
    else None.

Definition ch4_case {F} (key : string) (value : @FoamData F) : @CaseDir F :=
  case_of (ch4_only key value) [] empty_pipeline.

(** A leaf block whose integration yields the given row. *)
Definition patch_block {F} (arrays : list string) (integrated : FieldData F)
  : @vtkDataObject F :=
  DataSet {| GetCellData := map (fun name => (name, [])) arrays;
             GetPointData := [];
             IntegratedCellData := integrated;
             IntegratedPointData := [] |}.

(** A combustor as the reader delivers it: the interior mesh, and a
    boundary container with the two inlets and the outlet.  [I] and [A] are
    the integrated fuel and the area at the outlet; [T_range],
    [CH4_integrated], [T_integrated] and [volume] describe the interior. *)
Definition combustor {F} (I A : F) (T_range : F * F)
    (CH4_integrated T_integrated volume : F) : @CaseReader F :=
  {| MeshRegions :=
       ["internalMesh"; "patch/inletAir"; "patch/inletFuel"; "patch/outlet"];
     Fetch :=
       [ (MetaData (Some "internalMesh"), Some (patch_block ["CH4"; "T"] []));
         (MetaData (Some "boundary"),
          Some (MultiBlock
                  [ (MetaData (Some "inletAir"), Some (patch_block ["CH4"; "T"] []));
                    (MetaData (Some "inletFuel"), Some (patch_block ["CH4"; "T"] []));
                    (MetaData (Some "outlet"),
                     Some (patch_block ["CH4"; "T"] [("CH4", I); ("Area", A)])) ])) ];
     CellDataInformation := [("T", T_range)];
     IntegrateVariables :=
       [("CH4", CH4_integrated); ("T", T_integrated); ("Volume", volume)] |}.

(** Command lines. *)
Definition usage_argv : list string := ["compute_metric.py"; "case"].
Definition malformed_time_argv : list string :=
  ["compute_metric.py"; "case"; "pattern_factor"; "--latest"].
Definition unparsable_time_argv : list string :=
  ["compute_metric.py"; "case"; "pattern_factor"; "--time=soon"].

(** A file system in which every path is the same case. *)
Definition one_case : string -> @CaseDir Q :=
  fun _ =>
    case_of (ch4_only "value" (FNum (4 # 10)%Q)) [0%Q; (1 # 10)%Q]
      (combustor 2%Q 10%Q (300%Q, 350%Q) (1 # 10)%Q 640%Q 2%Q).

(** ** Further predicates *)

(** [block] stands in the fetched tree under a name that contains
    [outlet] in any letter case: at the top level, or one level down
    inside a multi-block container of the top level. *)
Definition named_outlet {F} (full_data : list (@metadata * option (@vtkDataObject F)))
    (block : @vtkDataObject F) : Prop :=
  (exists meta name,
     In (meta, Some block) full_data /\
     lower_block_name (F := F) meta = ret name /\
     str_in "outlet" name = true) \/
  (exists meta sub_blocks sub_meta name,
     In (meta, Some (MultiBlock sub_blocks)) full_data /\
     In (sub_meta, Some block) sub_blocks /\
     lower_block_name (F := F) sub_meta = ret name /\
     str_in "outlet" name = true).

(** The process that ends with status 1 after the warnings and the report
    of the exception [e] on standard error. *)
Definition failure_report {F} (warnings : list (line F)) (e : exn F) : @process F :=
  {| exit_code := 1; stdout := [];
     stderr := warnings ++ [ErrorLine e; TracebackHeader; Traceback e] |}.

(** No character of [s] is [c]. *)
Fixpoint free_of (c : ascii) (s : string) : bool :=
  match s with
  | EmptyString => true
  | String a r => (negb (Ascii.eqb a c) && free_of c r)%bool
  end.

(** The file system that maps every path to [case_dir]. *)
Definition everywhere {F} (case_dir : @CaseDir F) : string -> @CaseDir F :=
  fun _ => case_dir.

(** A case whose only boundary-condition file is an unreadable
    [0.orig/CH4]. *)
Definition unreadable_orig_only : string -> string -> option (@FoamFile Q) :=
  fun subdirectory field_name =>
    if (String.eqb field_name "CH4" && String.eqb subdirectory "0.orig")%bool
    then Some Unreadable
    else None.

(** A directory that does not exist. *)
Definition missing_case : @CaseDir Q :=
  {| dir_exists := false;
     processor_dirs := [];
     file_at := fun _ _ => None;
     decomposed_case := reader_of [] empty_pipeline;
     reconstructed_case := reader_of [] empty_pipeline |}.

(** A case with no boundary-condition file at all. *)
Definition no_files {F} : string -> string -> option (@FoamFile F) :=
  fun _ _ => None.

(** A case whose [0.orig] holds an unreadable [CH4] file and whose [0]
    holds a good one. *)
Definition shadowed_files : string -> string -> option (@FoamFile Q) :=
  fun subdirectory field_name =>
    if String.eqb field_name "CH4" then
      if String.eqb subdirectory "0.orig" then Some Unreadable
      else if String.eqb subdirectory "0"
           then Some (patch_file "inletFuel" "value" (FNum (4 # 10)%Q))
           else None
    else None.

(** * Properties *)

(** ** Laws of the effect monad *)

Section EffLaws.
Context {F : Type}.
Implicit Types (Pev : event F -> Prop) (Pexn : exn F -> Prop).

Lemma bind_ret_l {A B} (a : A) (k : A -> Eff F B) : bind (ret a) k = k a.
Proof. unfold bind, ret. destruct (k a). reflexivity. Qed.

Lemma bind_raise_l {A B} (e : exn F) (k : A -> Eff F B) :
  bind (raise e) k = raise e.
Proof. reflexivity. Qed.

Lemma bind_silent_return {A B} (c : Eff F A) (a : A) (k : A -> Eff F B) :
  c = ([], Return a) -> bind c k = k a.
Proof. intros ->. apply bind_ret_l. Qed.

Lemma bind_return {A B} (c : Eff F A) tr (a : A) (k : A -> Eff F B) :
  c = (tr, Return a) -> bind c k = (tr ++ trace (k a), result (k a)).
Proof. intros ->. unfold bind, trace, result. destruct (k a). reflexivity. Qed.

Lemma bind_raise {A B} (c : Eff F A) tr e (k : A -> Eff F B) :
  c = (tr, Raise e) -> bind c k = (tr, Raise e).
Proof. intros ->. reflexivity. Qed.

Lemma obeys_ret {A} Pev Pexn (a : A) : obeys Pev Pexn (ret a).
Proof. split; [constructor | discriminate]. Qed.

Lemma obeys_raise {A} Pev Pexn (e : exn F) :
  Pexn e -> obeys (A := A) Pev Pexn (raise e).
Proof. intros He. split; [constructor |]. intros e' [= <-]. exact He. Qed.

Lemma obeys_emit Pev Pexn (ev : event F) : Pev ev -> obeys Pev Pexn (emit ev).
Proof. intros Hev. split; [repeat constructor; exact Hev | discriminate]. Qed.

Lemma obeys_bind {A B} Pev Pexn (c : Eff F A) (k : A -> Eff F B) :
  obeys Pev Pexn c -> (forall a, obeys Pev Pexn (k a)) ->
  obeys Pev Pexn (bind c k).
Proof.
  intros [Htr Hex] Hk. destruct c as [tr [a | e]]; simpl in *.
  - destruct (Hk a) as [Htr' Hex']. unfold bind.
    destruct (k a) as [tr' r]. simpl in *. split.
    + apply Forall_app. split; assumption.
    + exact Hex'.
  - split; [exact Htr |]. intros e0 [= <-]. apply Hex. reflexivity.
Qed.

Lemma obeys_weaken {A} Pev Pexn Pev' Pexn' (c : Eff F A) :
  (forall ev, Pev ev -> Pev' ev) -> (forall e, Pexn e -> Pexn' e) ->
  obeys Pev Pexn c -> obeys Pev' Pexn' c.
Proof.
  intros Hev He [Htr Hex]. split.
  - eapply Forall_impl; [exact Htr | exact Hev].
  - intros e Hr. apply He, Hex, Hr.
Qed.

Lemma obeys_silent_return {A} Pev Pexn (c : Eff F A) (a : A) :
  c = ([], Return a) -> obeys Pev Pexn c.
Proof. intros ->. apply obeys_ret. Qed.

(** A computation with no event and no uncaught kind of exception has an
    empty trace, and [try_except] turns it into its handler's result. *)
Lemma obeys_no_event_trace {A} Pexn (c : Eff F A) :
  obeys no_event Pexn c -> trace c = [].
Proof.
  intros [Htr _]. destruct (trace c) as [| ev tr]; [reflexivity |].
  inversion Htr as [| ? ? Hev _]. destruct Hev.
Qed.

Lemma try_except_silent {A} (body : Eff F A) (fallback : A) :
  obeys no_event caught body ->
  try_except body (fun _ => ret fallback) = ([], Return fallback) \/
  exists a, body = ([], Return a) /\
            try_except body (fun _ => ret fallback) = ([], Return a).
Proof.
  intros Hb. pose proof (obeys_no_event_trace _ _ Hb) as Htr.
  destruct Hb as [_ Hex]. destruct body as [tr [a | e]]; simpl in *; subst tr.
  - right. exists a. split; reflexivity.
  - left. rewrite (Hex e eq_refl). reflexivity.
Qed.

Lemma try_except_raise {A} (body : Eff F A) (fallback : A) tr e :
  obeys no_event caught body -> body = (tr, Raise e) ->
  try_except body (fun _ => ret fallback) = ([], Return fallback).
Proof.
  intros Hb ->. pose proof (obeys_no_event_trace _ _ Hb) as Htr.
  destruct Hb as [_ Hex]. simpl in *. subst tr.
  rewrite (Hex e eq_refl). reflexivity.
Qed.
End EffLaws.

(** Splits a goal [obeys _ _ c] along the structure of [c]. *)
Ltac obeys_step :=
  match goal with
  | |- obeys _ _ (ret _) => apply obeys_ret
  | |- obeys _ _ (raise _) => apply obeys_raise; try reflexivity
  | |- obeys _ _ (emit _) => apply obeys_emit
  | |- obeys _ _ (bind _ _) => apply obeys_bind; [| intros ?]
  | |- obeys _ _ (match ?x with _ => _ end) => destruct x eqn:?
  | |- obeys _ _ (if ?b then _ else _) => destruct b eqn:?
  | |- obeys _ _ (let '(_, _) := ?p in _) => destruct p
  end.
Ltac obeys_auto := repeat obeys_step.

(** ** The boundary-condition reader *)

Section Reader.
Context {F : Type}.
Variable FOAMLIB_AVAILABLE : bool.
Variable float_of_string : string -> option F.

Local Abbreviation silent := (obeys (F := F) no_event caught).

Lemma py_contains_silent key (container : @FoamData F) :
  silent (py_contains key container).
Proof. unfold py_contains. obeys_auto. Qed.

Lemma py_getitem_silent (container : @FoamData F) key :
  silent (py_getitem container key).
Proof. unfold py_getitem. obeys_auto. Qed.

Lemma py_getitem_0_silent (container : @FoamData F) :
  silent (py_getitem_0 container).
Proof. unfold py_getitem_0. obeys_auto. Qed.

Lemma py_len_silent (value : @FoamData F) : silent (py_len value).
Proof. unfold py_len. obeys_auto. Qed.

Lemma py_float_silent (value : @FoamData F) :
  silent (py_float float_of_string value).
Proof. unfold py_float. obeys_auto. Qed.

Lemma file_getitem_silent (foam_file : @FoamFile F) key :
  silent (file_getitem foam_file key).
Proof. unfold file_getitem. obeys_auto. Qed.

Lemma resolve_value_silent (case_dir : @CaseDir F) field_name patch_name :
  silent (resolve_value case_dir field_name patch_name).
Proof.
  unfold resolve_value.
  repeat first
    [ apply file_getitem_silent | apply py_contains_silent
    | apply py_getitem_silent | obeys_step ].
Qed.

Lemma convert_value_silent (value : @FoamData F) :
  silent (convert_value float_of_string value).
Proof.
  unfold convert_value.
  repeat first
    [ apply py_len_silent | apply py_getitem_0_silent
    | apply py_float_silent | obeys_step ].
Qed.

Lemma read_boundary_condition_try_silent (case_dir : @CaseDir F)
    field_name patch_name fallback_value :
  silent (read_boundary_condition_try float_of_string case_dir field_name
            patch_name fallback_value).
Proof.
  unfold read_boundary_condition_try.
  apply obeys_bind; [apply resolve_value_silent |].
  intros [| value]; [apply obeys_ret | apply convert_value_silent].
Qed.

(** The reader always returns, and leaves no event. *)
Lemma read_boundary_condition_returns (case_dir : @CaseDir F)
    field_name patch_name fallback_value :
  exists v,
    read_boundary_condition FOAMLIB_AVAILABLE float_of_string case_dir
      field_name patch_name fallback_value = ([], Return v).
Proof.
  unfold read_boundary_condition. destruct FOAMLIB_AVAILABLE; simpl.
  - destruct (try_except_silent _ fallback_value
                (read_boundary_condition_try_silent case_dir field_name
                   patch_name fallback_value)) as [Hfb | (a & _ & Ha)];
      eauto.
  - eexists. reflexivity.
Qed.

(** When the lookup part ends at a [return fallback_value], so does the
    function. *)
Lemma read_boundary_condition_UseFallback (case_dir : @CaseDir F)
    field_name patch_name fallback_value :
  resolve_value case_dir field_name patch_name = ([], Return UseFallback) ->
  read_boundary_condition FOAMLIB_AVAILABLE float_of_string case_dir
    field_name patch_name fallback_value = ([], Return fallback_value).
Proof.
  intros Hres. unfold read_boundary_condition, read_boundary_condition_try.
  rewrite Hres. destruct FOAMLIB_AVAILABLE; reflexivity.
Qed.

Lemma resolve_value_trace (case_dir : @CaseDir F) field_name patch_name r :
  result (resolve_value case_dir field_name patch_name) = r ->
  resolve_value case_dir field_name patch_name = ([], r).
Proof.
  intros <-.
  pose proof (obeys_no_event_trace _ _
                (resolve_value_silent case_dir field_name patch_name)) as Htr.
  destruct (resolve_value case_dir field_name patch_name) as [tr r].
  simpl in *. subst tr. reflexivity.
Qed.

(** When the lookup part binds [value], the function is the conversion
    of [value] under the handler. *)
Lemma read_boundary_condition_Found (case_dir : @CaseDir F)
    field_name patch_name fallback_value value :
  result (resolve_value case_dir field_name patch_name) = Return (Found value) ->
  read_boundary_condition true float_of_string case_dir
    field_name patch_name fallback_value =
  try_except (convert_value float_of_string value) (fun _ => ret fallback_value).
Proof.
  intros Hres. apply resolve_value_trace in Hres.
  unfold read_boundary_condition, read_boundary_condition_try. simpl.
  rewrite (bind_silent_return _ _ _ Hres). reflexivity.
Qed.

Lemma resolve_value_file_absent (case_dir : @CaseDir F) field_name patch_name :
  file_absent case_dir field_name ->
  resolve_value case_dir field_name patch_name = ([], Return UseFallback).
Proof. unfold file_absent, resolve_value. intros ->. reflexivity. Qed.

Lemma resolve_value_patch_absent (case_dir : @CaseDir F) field_name patch_name :
  patch_absent case_dir field_name patch_name ->
  resolve_value case_dir field_name patch_name = ([], Return UseFallback).
Proof.
  intros (top & bf & Hfile & Htop & Hpatch). unfold resolve_value.
  rewrite Hfile. simpl. rewrite Htop. simpl. rewrite Hpatch. reflexivity.
Qed.

Lemma resolve_value_keys_absent (case_dir : @CaseDir F) field_name patch_name :
  value_keys_absent case_dir field_name patch_name ->
  resolve_value case_dir field_name patch_name = ([], Return UseFallback).
Proof.
  intros (pd & (top & bf & Hfile & Htop & Hpatch) & Hvalue & Hinlet).
  unfold resolve_value.
  rewrite Hfile. simpl. rewrite Htop. simpl. rewrite Hpatch. simpl.
  rewrite Hvalue. simpl. rewrite Hinlet. reflexivity.
Qed.

Lemma resolve_value_value_key (case_dir : @CaseDir F) field_name patch_name
    patch_data value :
  patch_entries case_dir field_name patch_name patch_data ->
  patch_data !! "value" = Some value ->
  resolve_value case_dir field_name patch_name = ([], Return (Found value)).
Proof.
  intros (top & bf & Hfile & Htop & Hpatch) Hvalue. unfold resolve_value.
  rewrite Hfile. simpl. rewrite Htop. simpl. rewrite Hpatch. simpl.
  rewrite Hvalue. reflexivity.
Qed.

Lemma resolve_value_inletValue_key (case_dir : @CaseDir F) field_name patch_name
    patch_data value :
  patch_entries case_dir field_name patch_name patch_data ->
  patch_data !! "value" = None ->
  patch_data !! "inletValue" = Some value ->
  resolve_value case_dir field_name patch_name = ([], Return (Found value)).
Proof.
  intros (top & bf & Hfile & Htop & Hpatch) Hvalue Hinlet. unfold resolve_value.
  rewrite Hfile. simpl. rewrite Htop. simpl. rewrite Hpatch. simpl.
  rewrite Hvalue. simpl. rewrite Hinlet. reflexivity.
Qed.
End Reader.

Section ReaderContract.
Context {F : Type}.
Variable FOAMLIB_AVAILABLE : bool.
Variable float_of_string : string -> option F.

(** C5.  [read_boundary_condition] never raises: it always returns a value
    (and leaves no event).  It returns exactly the caller's fallback when
    the field file is absent, when the patch is not a key of
    [boundaryField], and when the patch has neither a [value] nor an
    [inletValue] entry; [value] is consulted before [inletValue].  Any
    exception raised inside the [try] block is turned into the fallback. *)
Theorem read_boundary_condition_lenient (case_dir : @CaseDir F)
    (field_name patch_name : string) (fallback_value : pyval F) :
  let read :=
    read_boundary_condition FOAMLIB_AVAILABLE float_of_string case_dir
      field_name patch_name fallback_value in
  (exists v, read = ([], Return v)) /\
  (file_absent case_dir field_name \/
   patch_absent case_dir field_name patch_name \/
   value_keys_absent case_dir field_name patch_name ->
   read = ([], Return fallback_value)) /\
  (forall patch_data value,
     patch_entries case_dir field_name patch_name patch_data ->
     patch_data !! "value" = Some value ->
     resolve_value case_dir field_name patch_name = ([], Return (Found value))) /\
  (forall patch_data value,
     patch_entries case_dir field_name patch_name patch_data ->
     patch_data !! "value" = None ->
     patch_data !! "inletValue" = Some value ->
     resolve_value case_dir field_name patch_name = ([], Return (Found value))) /\
  (forall tr e,
     read_boundary_condition_try float_of_string case_dir field_name patch_name
       fallback_value = (tr, Raise e) ->
     read = ([], Return fallback_value)).
Proof.
  intros read. subst read. repeat split.
  - apply read_boundary_condition_returns.
  - intros [Hfile | [Hpatch | Hkeys]];
      apply read_boundary_condition_UseFallback.
    + apply resolve_value_file_absent, Hfile.
    + apply resolve_value_patch_absent, Hpatch.
    + apply resolve_value_keys_absent, Hkeys.
  - intros patch_data value. apply resolve_value_value_key.
  - intros patch_data value. apply resolve_value_inletValue_key.
  - intros tr e Hraise. unfold read_boundary_condition.
    destruct FOAMLIB_AVAILABLE; simpl; [| reflexivity].
    eapply try_except_raise; [| exact Hraise].
    apply read_boundary_condition_try_silent.
Qed.

(** The conversion of a value with two or more components raises. *)
Lemma convert_value_multi_component (value : @FoamData F) (n : nat) :
  iterable_of_length value n -> 2 <= n ->
  convert_value float_of_string value = ([], Raise TypeError).
Proof.
  intros Hlen Hn. unfold convert_value.
  destruct value as [x | s | l | d]; simpl in Hlen; try contradiction; simpl;
    rewrite Hlen; destruct n as [| [| n]]; try lia; reflexivity.
Qed.

(** C8.  When the resolved value is a non-string iterable with two or more
    components, the cast [float(value)] of the whole value raises inside
    the function, the handler absorbs the exception, and the caller gets
    its fallback: the vector itself is never returned. *)
Theorem multi_component_value_gives_fallback (case_dir : @CaseDir F)
    (field_name patch_name : string) (fallback_value : pyval F)
    (value : @FoamData F) (n : nat) :
  result (resolve_value case_dir field_name patch_name) = Return (Found value) ->
  iterable_of_length value n ->
  2 <= n ->
  convert_value float_of_string value = ([], Raise TypeError) /\
  read_boundary_condition_try float_of_string case_dir field_name patch_name
    fallback_value = ([], Raise TypeError) /\
  read_boundary_condition FOAMLIB_AVAILABLE float_of_string case_dir
    field_name patch_name fallback_value = ([], Return fallback_value).
Proof.
  intros Hres Hlen Hn.
  pose proof (convert_value_multi_component value n Hlen Hn) as Hconv.
  assert (Htry : read_boundary_condition_try float_of_string case_dir field_name
                   patch_name fallback_value = ([], Raise TypeError)).
  { unfold read_boundary_condition_try.
    rewrite (bind_silent_return _ _ _ (resolve_value_trace _ _ _ _ Hres)).
    exact Hconv. }
  repeat split; [exact Hconv | exact Htry |].
  unfold read_boundary_condition. rewrite Htry.
  destruct FOAMLIB_AVAILABLE; reflexivity.
Qed.

(** C10.  When foamlib is available and the resolved value is a non-string
    iterable of length zero, no [return] statement is reached and the
    function returns [None]: not a float, and not the fallback whenever the
    fallback is a float. *)
Theorem empty_value_gives_None (case_dir : @CaseDir F)
    (field_name patch_name : string) (fallback_value : pyval F)
    (value : @FoamData F) :
  result (resolve_value case_dir field_name patch_name) = Return (Found value) ->
  iterable_of_length value 0 ->
  let read :=
    read_boundary_condition true float_of_string case_dir field_name patch_name
      fallback_value in
  read = ([], Return PNone) /\
  (forall x, read <> ([], Return (PFloat x))) /\
  (forall x, fallback_value = PFloat x -> read <> ([], Return fallback_value)).
Proof.
  intros Hres Hlen read.
  assert (Hread : read = ([], Return PNone)).
  { subst read. rewrite (read_boundary_condition_Found _ _ _ _ _ _ Hres).
    unfold convert_value.
    destruct value as [x | s | l | d]; simpl in Hlen; try contradiction; simpl;
      rewrite Hlen; reflexivity. }
  split; [exact Hread |]. rewrite Hread.
  split; [intros x | intros x ->]; discriminate.
Qed.
End ReaderContract.

(** A field file that lacks the requested patch: the fallback 300.0 comes
    back. *)
Lemma read_boundary_condition_lenient_witness :
  patch_absent (ch4_case "value" (FNum (4 # 10)%Q)) "CH4" "inletAir" /\
  read_boundary_condition true parse_decimal (ch4_case "value" (FNum (4 # 10)%Q))
    "CH4" "inletAir" (PFloat 300%Q) = ([], Return (PFloat 300%Q)).
Proof.
  assert (Habsent : patch_absent (ch4_case "value" (FNum (4 # 10)%Q)) "CH4" "inletAir").
  { eexists _, _. repeat split; vm_compute; reflexivity. }
  split; [exact Habsent |].
  apply (proj1 (proj2 (read_boundary_condition_lenient true parse_decimal
                         (ch4_case "value" (FNum (4 # 10)%Q)) "CH4" "inletAir"
                         (PFloat 300%Q)))).
  right. left. exact Habsent.
Defined.

(** A three-component vector under [value]: the fallback comes back. *)
Lemma multi_component_value_gives_fallback_witness :
  read_boundary_condition true parse_decimal
    (ch4_case "value" (FSeq [FNum 1%Q; FNum 0%Q; FNum 0%Q]))
    "CH4" "inletFuel" (PFloat (1561 # 10000)%Q)
  = ([], Return (PFloat (1561 # 10000)%Q)).
Proof.
  apply (multi_component_value_gives_fallback true parse_decimal
           (ch4_case "value" (FSeq [FNum 1%Q; FNum 0%Q; FNum 0%Q]))
           "CH4" "inletFuel" (PFloat (1561 # 10000)%Q)
           (FSeq [FNum 1%Q; FNum 0%Q; FNum 0%Q]) 3).
  - vm_compute. reflexivity.
  - reflexivity.
  - lia.
Defined.

(** An empty list under [value]: [None] comes back. *)
Lemma empty_value_gives_None_witness :
  read_boundary_condition true parse_decimal (ch4_case "value" (FSeq []))
    "CH4" "inletFuel" (PFloat (1561 # 10000)%Q)
  = ([], Return PNone).
Proof.
  apply (empty_value_gives_None parse_decimal (ch4_case "value" (FSeq []))
           "CH4" "inletFuel" (PFloat (1561 # 10000)%Q) (FSeq [])).
  - vm_compute. reflexivity.
  - reflexivity.
Defined.

(** ** The evaluators: events and exceptions, for any float type *)

Section EvaluatorEffects.
Context {F : Type} `{PyFloat F}.
Variable FOAMLIB_AVAILABLE : bool.
Variable float_of_string : string -> option F.

Local Abbreviation silent := (obeys (F := F) no_event caught).
Local Abbreviation divides_only := (obeys (F := F) is_division caught).

Lemma silent_divides_only {A} (c : Eff F A) : silent c -> divides_only c.
Proof. apply obeys_weaken; [intros ev [] | auto]. Qed.

Lemma get_inlet_conditions_returns (case_dir : @CaseDir F) :
  exists ch4_inlet t_inlet,
    read_boundary_condition FOAMLIB_AVAILABLE float_of_string case_dir
      "CH4" "inletFuel" (PFloat lit_0_1561) = ([], Return ch4_inlet) /\
    read_boundary_condition FOAMLIB_AVAILABLE float_of_string case_dir
      "T" "inletAir" (PFloat lit_300) = ([], Return t_inlet) /\
    get_inlet_conditions FOAMLIB_AVAILABLE float_of_string case_dir =
      ([], Return {| CH4_inlet := ch4_inlet; T_inlet := t_inlet |}).
Proof.
  destruct (read_boundary_condition_returns FOAMLIB_AVAILABLE float_of_string
              case_dir "CH4" "inletFuel" (PFloat lit_0_1561)) as [c Hc].
  destruct (read_boundary_condition_returns FOAMLIB_AVAILABLE float_of_string
              case_dir "T" "inletAir" (PFloat lit_300)) as [t Ht].
  exists c, t. repeat split; try assumption.
  unfold get_inlet_conditions. rewrite Hc, Ht. reflexivity.
Qed.

Lemma get_inlet_conditions_silent (case_dir : @CaseDir F) :
  silent (get_inlet_conditions FOAMLIB_AVAILABLE float_of_string case_dir).
Proof.
  destruct (get_inlet_conditions_returns case_dir) as (c & t & _ & _ & Hget).
  eapply obeys_silent_return, Hget.
Qed.

Lemma lower_block_name_silent (meta : metadata) : silent (lower_block_name meta).
Proof. unfold lower_block_name. obeys_auto. Qed.

Lemma search_sub_blocks_silent (sub_blocks : list (metadata * option vtkDataObject)) :
  silent (search_sub_blocks sub_blocks).
Proof.
  induction sub_blocks as [| [meta sub_block] rest IH]; simpl.
  - apply obeys_ret.
  - apply obeys_bind; [apply lower_block_name_silent |].
    intros sub_name. destruct (str_in "outlet" sub_name);
      [apply obeys_ret | exact IH].
Qed.

Lemma find_outlet_block_silent outlet_block_name
    (full_data : list (metadata * option vtkDataObject)) :
  silent (find_outlet_block outlet_block_name full_data).
Proof.
  induction full_data as [| [meta block] rest IH]; simpl.
  - apply obeys_ret.
  - apply obeys_bind; [apply lower_block_name_silent |].
    intros block_name. destruct (str_in (lower outlet_block_name) block_name);
      [apply obeys_ret |].
    destruct block as [[d | sub_blocks] |]; try exact IH.
    apply obeys_bind; [apply search_sub_blocks_silent |].
    intros [found |]; [apply obeys_ret | exact IH].
Qed.

Lemma integrate_outlet_silent (case_reader : @CaseReader F) :
  silent (integrate_outlet case_reader).
Proof.
  unfold integrate_outlet.
  repeat first [ apply find_outlet_block_silent | obeys_step ].
Qed.

Lemma as_float_silent (v : pyval F) : silent (as_float v).
Proof. unfold as_float. obeys_auto. Qed.

Lemma truediv_divides_only site (x y : F) : divides_only (truediv site x y).
Proof. unfold truediv. obeys_auto. exact I. Qed.

Lemma temperature_statistics_divides_only (case_reader : @CaseReader F) :
  divides_only (temperature_statistics case_reader).
Proof.
  unfold temperature_statistics.
  repeat first [ apply truediv_divides_only | obeys_step ].
Qed.

Lemma get_combustion_efficiency_divides_only case_reader case_dir :
  divides_only
    (get_combustion_efficiency FOAMLIB_AVAILABLE float_of_string case_reader case_dir).
Proof.
  unfold get_combustion_efficiency.
  repeat first
    [ apply silent_divides_only, get_inlet_conditions_silent
    | apply silent_divides_only, integrate_outlet_silent
    | apply silent_divides_only, as_float_silent
    | apply truediv_divides_only | obeys_step ].
Qed.

Lemma get_ch4_domain_average_divides_only case_reader (case_dir : @CaseDir F) :
  divides_only (get_ch4_domain_average case_reader case_dir).
Proof.
  unfold get_ch4_domain_average.
  repeat first [ apply truediv_divides_only | obeys_step ].
Qed.

Lemma get_pattern_factor_divides_only case_reader case_dir :
  divides_only
    (get_pattern_factor FOAMLIB_AVAILABLE float_of_string case_reader case_dir).
Proof.
  unfold get_pattern_factor.
  repeat first
    [ apply silent_divides_only, get_inlet_conditions_silent
    | apply temperature_statistics_divides_only
    | apply silent_divides_only, as_float_silent
    | apply truediv_divides_only | obeys_step ].
Qed.

Lemma get_temperature_rise_efficiency_divides_only case_reader case_dir :
  divides_only
    (get_temperature_rise_efficiency FOAMLIB_AVAILABLE float_of_string
       case_reader case_dir).
Proof.
  unfold get_temperature_rise_efficiency.
  repeat first
    [ apply silent_divides_only, get_inlet_conditions_silent
    | apply temperature_statistics_divides_only
    | apply silent_divides_only, as_float_silent
    | apply truediv_divides_only | obeys_step ].
Qed.

(** Every entry of the [metrics] table is one of the four evaluators. *)
Lemma metrics_get_divides_only metric_name metric case_reader case_dir :
  metrics_get metric_name (metrics FOAMLIB_AVAILABLE float_of_string) = Some metric ->
  divides_only (metric case_reader case_dir).
Proof.
  unfold metrics. simpl. intros Hget.
  repeat match type of Hget with
         | (if ?b then _ else _) = _ => destruct b
         end;
    inversion Hget; subst metric.
  - apply get_combustion_efficiency_divides_only.
  - apply get_ch4_domain_average_divides_only.
  - apply get_pattern_factor_divides_only.
  - apply get_temperature_rise_efficiency_divides_only.
Qed.
Lemma integrate_outlet_trace (case_reader : @CaseReader F) r :
  result (integrate_outlet case_reader) = r ->
  integrate_outlet case_reader = ([], r).
Proof.
  intros <-.
  pose proof (obeys_no_event_trace _ _ (integrate_outlet_silent case_reader)) as Htr.
  destruct (integrate_outlet case_reader) as [tr r]. simpl in *. subst tr.
  reflexivity.
Qed.

(** *** The branches of the evaluators, as the script's own tests decide
    them *)


(** Lines 328-337, once the statistics stage has yielded [(T_max, T_avg)]. *)
Lemma pattern_factor_any_float (case_reader : @CaseReader F)
    (case_dir : @CaseDir F) tr (T_max T_avg T_in : F) :
  temperature_statistics case_reader = (tr, Return (T_max, T_avg)) ->
  result (read_boundary_condition FOAMLIB_AVAILABLE float_of_string case_dir
            "T" "inletAir" (PFloat lit_300)) = Return (PFloat T_in) ->
  let denominator := fsub T_avg T_in in
  get_pattern_factor FOAMLIB_AVAILABLE float_of_string case_reader case_dir
  = if fleb denominator lit_0 then (tr, Return lit_999)
    else (tr ++ [Div PatternFactorRatio (fsub T_max T_avg) denominator],
          if fis_zero denominator then Raise ZeroDivisionError
          else Return (fdiv (fsub T_max T_avg) denominator)).
Proof.
  intros Hstat Hread denominator.
  destruct (get_inlet_conditions_returns case_dir) as (c & t & _ & Ht & Hget).
  rewrite Ht in Hread. injection Hread as ->.
  unfold get_pattern_factor.
  rewrite (bind_return _ _ _ _ Hstat).
  rewrite (bind_silent_return _ _ _ Hget). simpl T_inlet.
  simpl as_float. rewrite bind_ret_l. fold denominator.
  destruct (fleb denominator lit_0).
  - simpl. rewrite app_nil_r. reflexivity.
  - unfold truediv. destruct (fis_zero denominator); reflexivity.
Qed.

(** Lines 391-399, once the statistics stage has yielded [(T_max, T_avg)]. *)
Lemma temperature_rise_any_float (case_reader : @CaseReader F)
    (case_dir : @CaseDir F) tr (T_max T_avg T_in : F) :
  temperature_statistics case_reader = (tr, Return (T_max, T_avg)) ->
  result (read_boundary_condition FOAMLIB_AVAILABLE float_of_string case_dir
            "T" "inletAir" (PFloat lit_300)) = Return (PFloat T_in) ->
  let denominator := fsub T_max T_in in
  get_temperature_rise_efficiency FOAMLIB_AVAILABLE float_of_string case_reader
    case_dir
  = if fleb denominator lit_0 then (tr, Return lit_0)
    else (tr ++ [Div TemperatureRiseRatio (fsub T_avg T_in) denominator],
          if fis_zero denominator then Raise ZeroDivisionError
          else Return (fdiv (fsub T_avg T_in) denominator)).
Proof.
  intros Hstat Hread denominator.
  destruct (get_inlet_conditions_returns case_dir) as (c & t & _ & Ht & Hget).
  rewrite Ht in Hread. injection Hread as ->.
  unfold get_temperature_rise_efficiency.
  rewrite (bind_return _ _ _ _ Hstat).
  rewrite (bind_silent_return _ _ _ Hget). simpl T_inlet.
  simpl as_float. rewrite bind_ret_l. fold denominator.
  destruct (fleb denominator lit_0).
  - simpl. rewrite app_nil_r. reflexivity.
  - unfold truediv. destruct (fis_zero denominator); reflexivity.
Qed.

(** *** The measure test, for any float type *)

Local Abbreviation guarded := (obeys (F := F) measure_divisor_checked caught).

Lemma silent_guarded {A} (c : Eff F A) : silent c -> guarded c.
Proof. apply obeys_weaken; [intros ev [] | auto]. Qed.

Lemma truediv_guarded site (x y : F) :
  (site = OutletAverage \/ site = VolumeAverage -> fleb y lit_0 = false) ->
  guarded (truediv site x y).
Proof.
  intros Hy. unfold truediv. obeys_auto.
  destruct site; simpl; auto.
Qed.

Lemma temperature_statistics_guarded (case_reader : @CaseReader F) :
  guarded (temperature_statistics case_reader).
Proof.
  unfold temperature_statistics. obeys_auto.
  apply truediv_guarded. intros _. assumption.
Qed.

Lemma get_combustion_efficiency_guarded case_reader case_dir :
  guarded
    (get_combustion_efficiency FOAMLIB_AVAILABLE float_of_string case_reader case_dir).
Proof.
  unfold get_combustion_efficiency.
  apply obeys_bind; [apply silent_guarded, get_inlet_conditions_silent |].
  intros inlet_conditions.
  apply obeys_bind; [apply silent_guarded, integrate_outlet_silent |].
  intros [ch4_integrated area].
  destruct (fleb area lit_0) eqn:Harea; [apply obeys_raise; reflexivity |].
  apply obeys_bind.
  { apply truediv_guarded. intros _. exact Harea. }
  intros ch4_outlet.
  apply obeys_bind; [apply silent_guarded, as_float_silent |].
  intros ch4_inlet.
  apply obeys_bind; [| intros ratio; apply obeys_ret].
  apply truediv_guarded. intros [Hsite | Hsite]; discriminate.
Qed.

Lemma get_ch4_domain_average_guarded case_reader (case_dir : @CaseDir F) :
  guarded (get_ch4_domain_average case_reader case_dir).
Proof.
  unfold get_ch4_domain_average. obeys_auto.
  apply truediv_guarded. intros _. assumption.
Qed.

Lemma get_pattern_factor_guarded case_reader case_dir :
  guarded
    (get_pattern_factor FOAMLIB_AVAILABLE float_of_string case_reader case_dir).
Proof.
  unfold get_pattern_factor.
  apply obeys_bind; [apply temperature_statistics_guarded |].
  intros [T_max T_avg].
  apply obeys_bind; [apply silent_guarded, get_inlet_conditions_silent |].
  intros inlet_conditions.
  apply obeys_bind; [apply silent_guarded, as_float_silent |].
  intros T_in. cbv zeta.
  destruct (fleb (fsub T_avg T_in) lit_0); [apply obeys_ret |].
  apply obeys_bind; [| intros PF; apply obeys_ret].
  apply truediv_guarded. intros [Hsite | Hsite]; discriminate.
Qed.

Lemma get_temperature_rise_efficiency_guarded case_reader case_dir :
  guarded
    (get_temperature_rise_efficiency FOAMLIB_AVAILABLE float_of_string
       case_reader case_dir).
Proof.
  unfold get_temperature_rise_efficiency.
  apply obeys_bind; [apply temperature_statistics_guarded |].
  intros [T_max T_avg].
  apply obeys_bind; [apply silent_guarded, get_inlet_conditions_silent |].
  intros inlet_conditions.
  apply obeys_bind; [apply silent_guarded, as_float_silent |].
  intros T_in. cbv zeta.
  destruct (fleb (fsub T_max T_in) lit_0); [apply obeys_ret |].
  apply obeys_bind; [| intros eta_T; apply obeys_ret].
  apply truediv_guarded. intros [Hsite | Hsite]; discriminate.
Qed.

(** In every run of every evaluator of the table, a division by a measure
    comes after the test [measure <= 0] came out false. *)
Lemma metrics_get_guarded metric_name metric case_reader case_dir :
  metrics_get metric_name (metrics FOAMLIB_AVAILABLE float_of_string) = Some metric ->
  Forall measure_divisor_checked (trace (metric case_reader case_dir)).
Proof.
  unfold metrics. simpl. intros Hget.
  repeat match type of Hget with
         | (if ?b then _ else _) = _ => destruct b
         end;
    inversion Hget; subst metric.
  - apply get_combustion_efficiency_guarded.
  - apply get_ch4_domain_average_guarded.
  - apply get_pattern_factor_guarded.
  - apply get_temperature_rise_efficiency_guarded.
Qed.

(** A measure for which the test [measure <= 0] is true: the evaluator
    raises before it divides. *)
Lemma degenerate_measure_any_float (case_reader : @CaseReader F)
    (case_dir : @CaseDir F) :
  (forall I A,
     result (integrate_outlet case_reader) = Return (I, A) ->
     fleb A lit_0 = true ->
     get_combustion_efficiency FOAMLIB_AVAILABLE float_of_string case_reader
       case_dir = ([], Raise (ValueError (InvalidOutletArea A)))) /\
  (forall ch4_integrated volume,
     GetArray "CH4" (IntegrateVariables case_reader) = Some ch4_integrated ->
     GetArray "Volume" (IntegrateVariables case_reader) = Some volume ->
     fleb volume lit_0 = true ->
     get_ch4_domain_average case_reader case_dir =
       ([], Raise (ValueError (InvalidVolume volume)))) /\
  (forall T_range T_integrated volume,
     GetArray "T" (CellDataInformation case_reader) = Some T_range ->
     GetArray "T" (IntegrateVariables case_reader) = Some T_integrated ->
     GetArray "Volume" (IntegrateVariables case_reader) = Some volume ->
     fleb volume lit_0 = true ->
     get_pattern_factor FOAMLIB_AVAILABLE float_of_string case_reader case_dir =
       ([], Raise (ValueError (InvalidVolume volume))) /\
     get_temperature_rise_efficiency FOAMLIB_AVAILABLE float_of_string case_reader
       case_dir = ([], Raise (ValueError (InvalidVolume volume)))).
Proof.
  split; [| split].
  - intros I A Hint HA. apply integrate_outlet_trace in Hint.
    destruct (get_inlet_conditions_returns case_dir) as (c & t & _ & _ & Hget).
    unfold get_combustion_efficiency.
    rewrite (bind_silent_return _ _ _ Hget).
    rewrite (bind_silent_return _ _ _ Hint).
    rewrite HA. reflexivity.
  - intros ch4_integrated volume HC HV Hneg. unfold get_ch4_domain_average.
    rewrite HC, HV, Hneg. reflexivity.
  - intros T_range T_integrated volume Hrange HT HV Hneg.
    assert (Hstat : temperature_statistics case_reader =
                      ([], Raise (ValueError (InvalidVolume volume)))).
    { unfold temperature_statistics. rewrite Hrange, HT, HV, Hneg. reflexivity. }
    unfold get_pattern_factor, get_temperature_rise_efficiency.
    rewrite !(bind_raise _ _ _ _ Hstat). split; reflexivity.
Qed.
End EvaluatorEffects.

(** ** The evaluators over exact arithmetic *)

Local Open Scope Q_scope.

Lemma fleb_positive (x : Q) : 0 < x -> fleb x lit_0 = false.
Proof.
  intros Hx. simpl. destruct (Qle_bool x 0) eqn:Hle; [| reflexivity].
  apply Qle_bool_iff in Hle. lra.
Qed.

Lemma fleb_nonpositive (x : Q) : x <= 0 -> fleb x lit_0 = true.
Proof. intros Hx. simpl. apply Qle_bool_iff. exact Hx. Qed.

Lemma fleb_false_positive (x : Q) : fleb x lit_0 = false -> 0 < x.
Proof.
  simpl. intros Hle. apply Qnot_le_lt. intros Hx.
  apply Qle_bool_iff in Hx. congruence.
Qed.

Lemma fis_zero_false (x : Q) : ~ x == 0 -> fis_zero x = false.
Proof.
  intros Hx. simpl. destruct (Qeq_bool x 0) eqn:Heq; [| reflexivity].
  apply Qeq_bool_iff in Heq. contradiction.
Qed.

Lemma fis_zero_true (x : Q) : x == 0 -> fis_zero x = true.
Proof. intros Hx. simpl. apply Qeq_bool_iff. exact Hx. Qed.

Lemma truediv_nonzero site (x y : Q) :
  ~ y == 0 -> truediv site x y = ([Div site x y], Return (x / y)).
Proof. intros Hy. unfold truediv. rewrite (fis_zero_false y Hy). reflexivity. Qed.

Lemma truediv_zero site (x y : Q) :
  y == 0 -> truediv site x y = ([Div site x y], Raise ZeroDivisionError).
Proof. intros Hy. unfold truediv. rewrite (fis_zero_true y Hy). reflexivity. Qed.

Lemma temperature_statistics_valid (case_reader : @CaseReader Q)
    (T_min T_max T_integrated volume : Q) :
  GetArray "T" (CellDataInformation case_reader) = Some (T_min, T_max) ->
  GetArray "T" (IntegrateVariables case_reader) = Some T_integrated ->
  GetArray "Volume" (IntegrateVariables case_reader) = Some volume ->
  0 < volume ->
  temperature_statistics case_reader =
    ([Div VolumeAverage T_integrated volume], Return (T_max, T_integrated / volume)).
Proof.
  intros Hrange HT Hvol Hpos. unfold temperature_statistics.
  rewrite Hrange, HT, Hvol, (fleb_positive volume Hpos).
  rewrite (truediv_nonzero VolumeAverage T_integrated volume) by lra.
  reflexivity.
Qed.

Lemma temperature_statistics_degenerate (case_reader : @CaseReader Q)
    (T_range : Q * Q) (T_integrated volume : Q) :
  GetArray "T" (CellDataInformation case_reader) = Some T_range ->
  GetArray "T" (IntegrateVariables case_reader) = Some T_integrated ->
  GetArray "Volume" (IntegrateVariables case_reader) = Some volume ->
  volume <= 0 ->
  temperature_statistics case_reader = ([], Raise (ValueError (InvalidVolume volume))).
Proof.
  intros Hrange HT Hvol Hneg. unfold temperature_statistics.
  rewrite Hrange, HT, Hvol, (fleb_nonpositive volume Hneg). reflexivity.
Qed.

Section EvaluatorsQ.
Variable FOAMLIB_AVAILABLE : bool.
Variable float_of_string : string -> option Q.

(** C1.  For a case whose outlet integration yields the fuel integral [I]
    and the measure [A], with [I >= 0], [A > 0] and a fuel-inlet boundary
    value [C > 0], [get_combustion_efficiency] returns [1 - (I/A)/C] (after
    the two divisions of lines 217 and 220).  The result is at most 1, it
    is 1 when [I] is 0, and it is 0.5 for [I = 2], [A = 10], [C = 0.4]. *)
Theorem combustion_efficiency_formula (case_reader : @CaseReader Q)
    (case_dir : @CaseDir Q) (I A C : Q) :
  result (integrate_outlet case_reader) = Return (I, A) ->
  result (read_boundary_condition FOAMLIB_AVAILABLE float_of_string case_dir
            "CH4" "inletFuel" (PFloat lit_0_1561)) = Return (PFloat C) ->
  0 <= I -> 0 < A -> 0 < C ->
  let eta := 1 - (I / A) / C in
  get_combustion_efficiency FOAMLIB_AVAILABLE float_of_string case_reader case_dir
    = ([Div OutletAverage I A; Div InletRatio (I / A) C], Return eta) /\
  eta <= 1 /\
  (I == 0 -> eta == 1) /\
  (I == 2 -> A == 10 -> C == 4 # 10 -> eta == 1 # 2).
Proof.
  intros Hint Hread HI HA HC eta.
  destruct (get_inlet_conditions_returns FOAMLIB_AVAILABLE float_of_string case_dir)
    as (c & t & Hc & _ & Hget).
  rewrite Hc in Hread. injection Hread as ->.
  apply integrate_outlet_trace in Hint.
  split.
  - unfold get_combustion_efficiency.
    rewrite (bind_silent_return _ _ _ Hget). simpl CH4_inlet.
    rewrite (bind_silent_return _ _ _ Hint).
    rewrite (fleb_positive A HA).
    rewrite (truediv_nonzero OutletAverage I A) by lra.
    rewrite (bind_return _ [Div OutletAverage I A] (I / A)) by reflexivity.
    simpl as_float. rewrite bind_ret_l.
    rewrite (truediv_nonzero InletRatio (I / A) C) by lra.
    reflexivity.
  - assert (Hq : 0 <= I / A / C).
    { apply Qle_shift_div_l; [exact HC |]. rewrite Qmult_0_l.
      apply Qle_shift_div_l; [exact HA |]. rewrite Qmult_0_l. exact HI. }
    subst eta. repeat split.
    + lra.
    + intros H0. rewrite H0. field. split; lra.
    + intros H2 H10 H4. rewrite H2, H10, H4. reflexivity.
Qed.

(** C9.  The division by the fuel-inlet boundary value is unguarded.  When
    that value is 0 the evaluator never returns a scalar: every case ends
    in an exception, and a case that reaches line 220 (the outlet
    integration yields [I] and a positive area [A]) ends in
    [ZeroDivisionError], raised by the division of [I/A] by the inlet
    value. *)
Theorem combustion_efficiency_zero_inlet (case_reader : @CaseReader Q)
    (case_dir : @CaseDir Q) (C : Q) :
  result (read_boundary_condition FOAMLIB_AVAILABLE float_of_string case_dir
            "CH4" "inletFuel" (PFloat lit_0_1561)) = Return (PFloat C) ->
  C == 0 ->
  let eta :=
    get_combustion_efficiency FOAMLIB_AVAILABLE float_of_string case_reader
      case_dir in
  (exists e, result eta = Raise e) /\
  (forall I A,
     result (integrate_outlet case_reader) = Return (I, A) -> 0 < A ->
     eta = ([Div OutletAverage I A; Div InletRatio (I / A) C],
            Raise ZeroDivisionError)).
Proof.
  intros Hread HC eta.
  destruct (get_inlet_conditions_returns FOAMLIB_AVAILABLE float_of_string case_dir)
    as (c & t & Hc & _ & Hget).
  rewrite Hc in Hread. injection Hread as ->.
  assert (Hdiv : forall I A,
             result (integrate_outlet case_reader) = Return (I, A) -> 0 < A ->
             eta = ([Div OutletAverage I A; Div InletRatio (I / A) C],
                    Raise ZeroDivisionError)).
  { intros I A Hint HA. apply integrate_outlet_trace in Hint. subst eta.
    unfold get_combustion_efficiency.
    rewrite (bind_silent_return _ _ _ Hget). simpl CH4_inlet.
    rewrite (bind_silent_return _ _ _ Hint).
    rewrite (fleb_positive A HA).
    rewrite (truediv_nonzero OutletAverage I A) by lra.
    rewrite (bind_return _ [Div OutletAverage I A] (I / A)) by reflexivity.
    simpl as_float. rewrite bind_ret_l.
    rewrite (truediv_zero InletRatio (I / A) C HC).
    reflexivity. }
  split; [| exact Hdiv].
  destruct (result (integrate_outlet case_reader)) as [[I A] | e] eqn:Hint.
  - destruct (fleb A lit_0) eqn:HA.
    + apply integrate_outlet_trace in Hint. subst eta.
      unfold get_combustion_efficiency.
      rewrite (bind_silent_return _ _ _ Hget).
      rewrite (bind_silent_return _ _ _ Hint).
      rewrite HA. eexists. reflexivity.
    + rewrite (Hdiv I A eq_refl (fleb_false_positive A HA)).
      eexists. reflexivity.
  - apply integrate_outlet_trace in Hint. subst eta.
    unfold get_combustion_efficiency.
    rewrite (bind_silent_return _ _ _ Hget).
    rewrite (bind_raise _ _ _ _ Hint). eexists. reflexivity.
Qed.

(** C2.  For a case with a temperature range, an integrated temperature and
    a positive volume, and with a float inlet temperature,
    [get_pattern_factor] returns exactly 999.0 whenever [T_avg <= T_inlet],
    which is when the denominator [T_avg - T_inlet] is [<= 0]; that branch
    performs no division (its trace holds the averaging division that
    precedes the test and nothing else).  Otherwise it returns
    [(T_max - T_avg) / (T_avg - T_inlet)]. *)
Theorem pattern_factor_penalty (case_reader : @CaseReader Q) (case_dir : @CaseDir Q)
    (T_min T_max T_integrated volume T_in : Q) :
  GetArray "T" (CellDataInformation case_reader) = Some (T_min, T_max) ->
  GetArray "T" (IntegrateVariables case_reader) = Some T_integrated ->
  GetArray "Volume" (IntegrateVariables case_reader) = Some volume ->
  0 < volume ->
  result (read_boundary_condition FOAMLIB_AVAILABLE float_of_string case_dir
            "T" "inletAir" (PFloat lit_300)) = Return (PFloat T_in) ->
  let T_avg := T_integrated / volume in
  let PF :=
    get_pattern_factor FOAMLIB_AVAILABLE float_of_string case_reader case_dir in
  (T_avg <= T_in <-> T_avg - T_in <= 0) /\
  (T_avg <= T_in ->
   PF = ([Div VolumeAverage T_integrated volume], Return 999)) /\
  (~ T_avg <= T_in ->
   PF = ([Div VolumeAverage T_integrated volume;
          Div PatternFactorRatio (T_max - T_avg) (T_avg - T_in)],
         Return ((T_max - T_avg) / (T_avg - T_in)))).
Proof.
  intros Hrange HT Hvol Hpos Hread T_avg PF.
  destruct (get_inlet_conditions_returns FOAMLIB_AVAILABLE float_of_string case_dir)
    as (c & t & _ & Ht & Hget).
  rewrite Ht in Hread. injection Hread as ->.
  pose proof (temperature_statistics_valid case_reader T_min T_max T_integrated
                volume Hrange HT Hvol Hpos) as Hstat.
  assert (Hstart : PF =
            (let denominator := fsub T_avg T_in in
             ([Div VolumeAverage T_integrated volume] ++
              trace (if fleb denominator lit_0 then ret lit_999
                     else bind (truediv PatternFactorRatio (fsub T_max T_avg)
                                  denominator) (fun PF => ret PF)),
              result (if fleb denominator lit_0 then ret lit_999
                      else bind (truediv PatternFactorRatio (fsub T_max T_avg)
                                   denominator) (fun PF => ret PF))))).
  { subst PF. unfold get_pattern_factor.
    rewrite (bind_return _ _ _ _ Hstat).
    rewrite (bind_silent_return _ _ _ Hget). simpl T_inlet.
    simpl as_float. rewrite bind_ret_l. reflexivity. }
  split; [split; intros Hle; lra |]. split.
  - intros Hle. rewrite Hstart. cbv zeta.
    rewrite (fleb_nonpositive (fsub T_avg T_in)) by (simpl; lra).
    reflexivity.
  - intros Hgt. rewrite Hstart. cbv zeta.
    rewrite (fleb_positive (fsub T_avg T_in)) by (simpl; lra).
    rewrite (truediv_nonzero PatternFactorRatio) by (simpl; lra).
    reflexivity.
Qed.

(** C3.  For a case as in C2, [get_temperature_rise_efficiency] returns
    exactly 0.0 whenever [T_max <= T_inlet], which is when the denominator
    [T_max - T_inlet] is [<= 0]; that branch performs no division (its
    trace holds the averaging division that precedes the test and nothing
    else).  Otherwise it returns [(T_avg - T_inlet) / (T_max - T_inlet)]. *)
Theorem temperature_rise_floor (case_reader : @CaseReader Q) (case_dir : @CaseDir Q)
    (T_min T_max T_integrated volume T_in : Q) :
  GetArray "T" (CellDataInformation case_reader) = Some (T_min, T_max) ->
  GetArray "T" (IntegrateVariables case_reader) = Some T_integrated ->
  GetArray "Volume" (IntegrateVariables case_reader) = Some volume ->
  0 < volume ->
  result (read_boundary_condition FOAMLIB_AVAILABLE float_of_string case_dir
            "T" "inletAir" (PFloat lit_300)) = Return (PFloat T_in) ->
  let T_avg := T_integrated / volume in
  let eta_T :=
    get_temperature_rise_efficiency FOAMLIB_AVAILABLE float_of_string case_reader
      case_dir in
  (T_max <= T_in <-> T_max - T_in <= 0) /\
  (T_max <= T_in ->
   eta_T = ([Div VolumeAverage T_integrated volume], Return 0)) /\
  (~ T_max <= T_in ->
   eta_T = ([Div VolumeAverage T_integrated volume;
             Div TemperatureRiseRatio (T_avg - T_in) (T_max - T_in)],
            Return ((T_avg - T_in) / (T_max - T_in)))).
Proof.
  intros Hrange HT Hvol Hpos Hread T_avg eta_T.
  destruct (get_inlet_conditions_returns FOAMLIB_AVAILABLE float_of_string case_dir)
    as (c & t & _ & Ht & Hget).
  rewrite Ht in Hread. injection Hread as ->.
  pose proof (temperature_statistics_valid case_reader T_min T_max T_integrated
                volume Hrange HT Hvol Hpos) as Hstat.
  assert (Hstart : eta_T =
            (let denominator := fsub T_max T_in in
             ([Div VolumeAverage T_integrated volume] ++
              trace (if fleb denominator lit_0 then ret lit_0
                     else bind (truediv TemperatureRiseRatio (fsub T_avg T_in)
                                  denominator) (fun eta_T => ret eta_T)),
              result (if fleb denominator lit_0 then ret lit_0
                      else bind (truediv TemperatureRiseRatio (fsub T_avg T_in)
                                   denominator) (fun eta_T => ret eta_T))))).
  { subst eta_T. unfold get_temperature_rise_efficiency.
    rewrite (bind_return _ _ _ _ Hstat).
    rewrite (bind_silent_return _ _ _ Hget). simpl T_inlet.
    simpl as_float. rewrite bind_ret_l. reflexivity. }
  split; [split; intros Hle; lra |]. split.
  - intros Hle. rewrite Hstart. cbv zeta.
    rewrite (fleb_nonpositive (fsub T_max T_in)) by (simpl; lra).
    reflexivity.
  - intros Hgt. rewrite Hstart. cbv zeta.
    rewrite (fleb_positive (fsub T_max T_in)) by (simpl; lra).
    rewrite (truediv_nonzero TemperatureRiseRatio) by (simpl; lra).
    reflexivity.
Qed.

Lemma measure_divisor_checked_positive (ev : event Q) :
  measure_divisor_checked ev -> measure_divisor_positive ev.
Proof.
  destruct ev as [[] x y | l | l]; simpl; auto; apply fleb_false_positive.
Qed.

(** C4.  In each of the four evaluators an integrated measure that is
    [<= 0] (the outlet area, or the domain volume) makes the evaluator
    raise its invalid-measure [ValueError] before any division: the trace
    is empty.  In every run of every evaluator of the [metrics] table, each
    division by a measure has a positive divisor. *)
Theorem degenerate_measure_raises (case_reader : @CaseReader Q)
    (case_dir : @CaseDir Q) :
  (forall I A,
     result (integrate_outlet case_reader) = Return (I, A) -> A <= 0 ->
     get_combustion_efficiency FOAMLIB_AVAILABLE float_of_string case_reader
       case_dir = ([], Raise (ValueError (InvalidOutletArea A)))) /\
  (forall ch4_integrated volume,
     GetArray "CH4" (IntegrateVariables case_reader) = Some ch4_integrated ->
     GetArray "Volume" (IntegrateVariables case_reader) = Some volume ->
     volume <= 0 ->
     get_ch4_domain_average case_reader case_dir =
       ([], Raise (ValueError (InvalidVolume volume)))) /\
  (forall T_range T_integrated volume,
     GetArray "T" (CellDataInformation case_reader) = Some T_range ->
     GetArray "T" (IntegrateVariables case_reader) = Some T_integrated ->
     GetArray "Volume" (IntegrateVariables case_reader) = Some volume ->
     volume <= 0 ->
     get_pattern_factor FOAMLIB_AVAILABLE float_of_string case_reader case_dir =
       ([], Raise (ValueError (InvalidVolume volume))) /\
     get_temperature_rise_efficiency FOAMLIB_AVAILABLE float_of_string case_reader
       case_dir = ([], Raise (ValueError (InvalidVolume volume)))) /\
  (forall metric_name metric,
     metrics_get metric_name (metrics FOAMLIB_AVAILABLE float_of_string) =
       Some metric ->
     Forall measure_divisor_positive (trace (metric case_reader case_dir))).
Proof.
  destruct (degenerate_measure_any_float FOAMLIB_AVAILABLE float_of_string
              case_reader case_dir) as (Harea & Hvolume & Htemperature).
  split; [| split; [| split]].
  - intros I A Hint HA.
    apply (Harea I A); [exact Hint | apply fleb_nonpositive, HA].
  - intros ch4_integrated volume HC HV Hneg.
    apply Hvolume with ch4_integrated; [exact HC | exact HV |].
    apply fleb_nonpositive, Hneg.
  - intros T_range T_integrated volume Hrange HT HV Hneg.
    apply Htemperature with T_range T_integrated; try assumption.
    apply fleb_nonpositive, Hneg.
  - intros metric_name metric Hget.
    eapply Forall_impl;
      [eapply metrics_get_guarded, Hget | apply measure_divisor_checked_positive].
Qed.
End EvaluatorsQ.

(** ** Time selection *)

Lemma Qltb_true (x y : Q) : Qltb x y = true <-> x < y.
Proof.
  unfold Qltb. rewrite negb_true_iff. split.
  - intros Hle. apply Qnot_le_lt. intros Hyx.
    apply Qle_bool_iff in Hyx. congruence.
  - intros Hlt. destruct (Qle_bool y x) eqn:Hle; [| reflexivity].
    apply Qle_bool_iff in Hle. lra.
Qed.

Lemma Qltb_false (x y : Q) : Qltb x y = false <-> y <= x.
Proof.
  unfold Qltb. rewrite negb_false_iff. apply Qle_bool_iff.
Qed.

Lemma min_by_key_In (key : Q -> Q) (rest : list Q) (best : Q) :
  In (min_by_key key best rest) (best :: rest).
Proof.
  revert best. induction rest as [| t rest IH]; intros best; simpl.
  - left. reflexivity.
  - destruct (Qltb (key t) (key best)).
    + right. apply IH.
    + destruct (IH best) as [Heq | Hin]; [left; exact Heq | right; right; exact Hin].
Qed.

Lemma min_by_key_le_best (key : Q -> Q) (rest : list Q) (best : Q) :
  key (min_by_key key best rest) <= key best.
Proof.
  revert best. induction rest as [| t rest IH]; intros best; simpl.
  - apply Qle_refl.
  - destruct (Qltb (key t) (key best)) eqn:Hlt.
    + apply Qltb_true in Hlt. specialize (IH t). lra.
    + apply IH.
Qed.

Lemma min_by_key_minimal (key : Q -> Q) (rest : list Q) (best x : Q) :
  In x (best :: rest) -> key (min_by_key key best rest) <= key x.
Proof.
  revert best. induction rest as [| t rest IH]; intros best Hin; simpl.
  - destruct Hin as [<- | []]. apply Qle_refl.
  - destruct (Qltb (key t) (key best)) eqn:Hlt.
    + destruct Hin as [<- | Hin].
      * apply Qltb_true in Hlt.
        pose proof (min_by_key_le_best key rest t). lra.
      * apply IH. exact Hin.
    + destruct Hin as [<- | [<- | Hin]].
      * apply min_by_key_le_best.
      * apply Qltb_false in Hlt.
        pose proof (min_by_key_le_best key rest best). lra.
      * apply IH. right. exact Hin.
Qed.

Lemma last_cons_default {A} (a d : A) (l : list A) :
  List.last (a :: l) d = List.last l a.
Proof.
  revert a d. induction l as [| b l IH]; intros a d; [reflexivity |].
  change (List.last (a :: b :: l) d) with (List.last (b :: l) d).
  rewrite (IH b d), (IH b a). reflexivity.
Qed.

(** C6.  With a requested time [t] and a non-empty series, the selected
    time is an element of the series whose absolute difference to [t] is
    minimal; the selection never fails, and a warning line is written to
    standard error exactly when that difference exceeds 1e-6.  With no
    requested time the last element of the series is selected.  For the
    series 0.0, 0.1, 0.25, 0.5 and the request 0.2 the selected time is
    0.25 and the warning is written. *)
Theorem select_time_nearest (t first : Q) (others : list Q) :
  let series := first :: others in
  let distance := fun x => Qabs (x - t) in
  (exists closest,
     result (select_time (Some t) series) = Return closest /\
     In closest series /\
     (forall x, In x series -> distance closest <= distance x) /\
     (lit_1em6 < distance closest ->
      trace (select_time (Some t) series) = [Stderr (WarningLine t closest)]) /\
     (~ lit_1em6 < distance closest ->
      trace (select_time (Some t) series) = [])) /\
  (forall default,
     select_time None series = ([], Return (List.last series default))) /\
  select_time (Some (2 # 10)) [0; 1 # 10; 25 # 100; 5 # 10] =
    ([Stderr (WarningLine (2 # 10) (25 # 100))], Return (25 # 100)).
Proof.
  intros series distance. split; [| split].
  - exists (min_by_key distance first others).
    unfold select_time, series. cbv zeta.
    change (fun t0 : Q => fabs (fsub t0 t)) with distance.
    change (fabs (fsub (min_by_key distance first others) t))
      with (distance (min_by_key distance first others)).
    destruct (fltb lit_1em6 (distance (min_by_key distance first others)))
      eqn:Hwarn; simpl in Hwarn.
    + apply Qltb_true in Hwarn. repeat split.
      * apply min_by_key_In.
      * intros x. apply min_by_key_minimal.
      * intros Hnot. elim Hnot. exact Hwarn.
    + apply Qltb_false in Hwarn. repeat split.
      * apply min_by_key_In.
      * intros x. apply min_by_key_minimal.
      * intros Hlt. simpl in Hlt. lra.
  - intros default. unfold series. rewrite last_cons_default. reflexivity.
  - reflexivity.
Qed.

Local Close Scope Q_scope.

(** ** The command-line entry point, for any float type *)

Section Main.
Context {F : Type} `{PyFloat F}.
Variable FOAMLIB_AVAILABLE : bool.
Variable float_of_string : string -> option F.

Local Abbreviation quiet := (obeys (F := F) not_stdout caught_or_exit_1).

Lemma stdout_of_app (tr tr' : list (event F)) :
  stdout_of (tr ++ tr') = stdout_of tr ++ stdout_of tr'.
Proof.
  induction tr as [| [site x y | l | l] tr IH]; simpl; rewrite ?IH; reflexivity.
Qed.

Lemma stderr_of_app (tr tr' : list (event F)) :
  stderr_of (tr ++ tr') = stderr_of tr ++ stderr_of tr'.
Proof.
  induction tr as [| [site x y | l | l] tr IH]; simpl; rewrite ?IH; reflexivity.
Qed.

Lemma stdout_of_not_stdout (tr : list (event F)) :
  Forall not_stdout tr -> stdout_of tr = [].
Proof.
  induction 1 as [| [site x y | l | l] tr Hev _ IH]; simpl; auto.
  destruct Hev.
Qed.

Lemma divides_only_quiet {A} (c : Eff F A) : obeys is_division caught c -> quiet c.
Proof.
  apply obeys_weaken.
  - intros [site x y | l | l] Hev; simpl in *; auto.
  - intros e He. left. exact He.
Qed.

Lemma parse_time_argument_quiet (argv : list string) :
  quiet (parse_time_argument float_of_string argv).
Proof.
  unfold parse_time_argument, float_of_str, py_float.
  obeys_auto; try (left; reflexivity). right. reflexivity.
Qed.

Lemma select_time_quiet (requested_time : option F) (time_values : list F) :
  quiet (select_time requested_time time_values).
Proof.
  unfold select_time. obeys_auto; try (left; reflexivity). exact I.
Qed.

Lemma prints_bind {A B} (c : Eff F A) (k : A -> Eff F B) :
  quiet c -> (forall a, prints_value_or_fails (k a)) ->
  prints_value_or_fails (bind c k).
Proof.
  intros [Htr Hex] Hk. apply stdout_of_not_stdout in Htr.
  unfold prints_value_or_fails in *.
  destruct c as [tr [a | e]]; simpl in *.
  - specialize (Hk a). unfold bind. destruct (k a) as [tr' r]. simpl in *.
    rewrite stdout_of_app, Htr. exact Hk.
  - split; [exact Htr | apply Hex; reflexivity].
Qed.

Lemma prints_raise {A} (e : exn F) :
  caught_or_exit_1 e -> prints_value_or_fails (A := A) (raise e).
Proof. intros He. split; [reflexivity | exact He]. Qed.

Lemma main_try_prints (argv : list string) (filesystem : string -> CaseDir) :
  prints_value_or_fails (main_try FOAMLIB_AVAILABLE float_of_string argv filesystem).
Proof.
  unfold main_try.
  destruct (Nat.ltb (length argv) 3 || Nat.ltb 4 (length argv))%bool.
  { repeat (apply prints_bind; [apply obeys_emit; exact I | intros _]).
    apply prints_raise. right. reflexivity. }
  destruct (nth_error argv 1) as [path |];
    [| apply prints_raise; left; reflexivity].
  destruct (nth_error argv 2) as [metric_name |];
    [| apply prints_raise; left; reflexivity].
  apply prints_bind; [apply parse_time_argument_quiet | intros requested_time].
  destruct (negb (dir_exists (filesystem path)));
    [apply prints_raise; left; reflexivity |].
  destruct (metrics_get metric_name (metrics FOAMLIB_AVAILABLE float_of_string))
    as [metric |] eqn:Hmetric; [| apply prints_raise; left; reflexivity].
  apply prints_bind; [apply select_time_quiet | intros use_time].
  apply prints_bind.
  { apply divides_only_quiet. eapply metrics_get_divides_only, Hmetric. }
  intros value. exists value. reflexivity.
Qed.

(** The three ways a run ends, from the way the body of [main] ends. *)
Lemma run_of_main_try (argv : list string) (filesystem : string -> CaseDir) :
  let body := main_try FOAMLIB_AVAILABLE float_of_string argv filesystem in
  let p := run FOAMLIB_AVAILABLE float_of_string argv filesystem in
  match result body with
  | Return _ =>
      p = {| exit_code := 0; stdout := stdout_of (trace body);
             stderr := stderr_of (trace body) |}
  | Raise e =>
      if is_Exception e then
        p = {| exit_code := 1; stdout := stdout_of (trace body);
               stderr := stderr_of (trace body) ++
                         [ErrorLine e; TracebackHeader; Traceback e] |}
      else
        exists code, e = SystemExit code /\
        p = {| exit_code := code; stdout := stdout_of (trace body);
               stderr := stderr_of (trace body) |}
  end.
Proof.
  intros body p. subst p. unfold run, main. fold body.
  destruct body as [tr [u | e]]; simpl.
  - reflexivity.
  - destruct e; simpl; rewrite ?stdout_of_app, ?stderr_of_app; simpl;
      rewrite ?app_nil_r; try reflexivity.
    eexists. split; reflexivity.
Qed.
End Main.

Section MainContract.
Context {F : Type} `{PyFloat F}.
Variable FOAMLIB_AVAILABLE : bool.
Variable float_of_string : string -> option F.

(** C7 (as the code has it).  On every failure path, that is whenever the
    body of [main] raises, the process exits with status 1 and writes
    nothing to standard output.  When the exception is an [Exception]
    (a missing directory, an unknown metric, an empty time series, an
    evaluator's error, or a fourth argument [--time=<text>] whose text is
    not a float) standard error ends with the error line, the traceback
    header and the trace.  When the number of arguments is wrong, standard
    error holds the three usage lines and no trace.  When the body returns,
    the status is 0 and standard output holds the value line. *)
Theorem main_failure_paths (argv : list string) (filesystem : string -> CaseDir) :
  let body := main_try FOAMLIB_AVAILABLE float_of_string argv filesystem in
  let p := run FOAMLIB_AVAILABLE float_of_string argv filesystem in
  (forall e, result body = Raise e ->
     exit_code p = 1%Z /\ stdout p = [] /\
     (is_Exception e = true ->
      stderr p = stderr_of (trace body) ++
                 [ErrorLine e; TracebackHeader; Traceback e])) /\
  (length argv < 3 \/ 4 < length argv ->
   p = {| exit_code := 1; stdout := [];
          stderr := [UsageLine; AvailableMetricsLine; OptionalTimeLine] |}) /\
  (forall script path metric_name time_arg text,
     argv = [script; path; metric_name; time_arg] ->
     startswith "--time=" time_arg = true ->
     nth_error (str_split "=" time_arg) 1 = Some text ->
     float_of_string text = None ->
     p = {| exit_code := 1; stdout := [];
            stderr := [ErrorLine (ValueError (CouldNotConvertToFloat text));
                       TracebackHeader;
                       Traceback (ValueError (CouldNotConvertToFloat text))] |}) /\
  (forall u, result body = Return u ->
     exit_code p = 0%Z /\ exists value, stdout p = [ValueLine value]).
Proof.
  intros body p.
  pose proof (run_of_main_try FOAMLIB_AVAILABLE float_of_string argv filesystem)
    as Hrun.
  pose proof (main_try_prints FOAMLIB_AVAILABLE float_of_string argv filesystem)
    as Hprints.
  cbv zeta in Hrun. fold body in Hrun, Hprints. fold p in Hrun.
  unfold prints_value_or_fails in Hprints.
  split; [| split; [| split]].
  - intros e He. rewrite He in Hrun, Hprints. destruct Hprints as [Hout Hkind].
    destruct (is_Exception e) eqn:Hexc.
    + rewrite Hrun. simpl. rewrite Hout. auto.
    + destruct Hrun as (code & -> & ->). simpl. rewrite Hout.
      destruct Hkind as [Hkind | Hkind]; [discriminate |].
      injection Hkind as ->. repeat split. discriminate.
  - intros Hargc. subst p. unfold run, main, main_try.
    assert (Hcount : (Nat.ltb (length argv) 3 || Nat.ltb 4 (length argv))%bool = true).
    { apply orb_true_iff. destruct Hargc as [Hlt | Hgt];
        [left | right]; apply Nat.ltb_lt; assumption. }
    rewrite Hcount. reflexivity.
  - intros script path metric_name time_arg text -> Hstart Hnth Hparse.
    assert (Htime : parse_time_argument float_of_string
                      [script; path; metric_name; time_arg] =
                    ([], Raise (ValueError (CouldNotConvertToFloat text)))).
    { unfold parse_time_argument. cbn [length Nat.eqb].
      change (nth_error [script; path; metric_name; time_arg] 3)
        with (Some time_arg).
      cbv iota. rewrite Hstart, Hnth. unfold float_of_str, py_float. rewrite Hparse.
      reflexivity. }
    subst p. unfold run, main, main_try.
    cbn [length Nat.ltb Nat.leb orb nth_error]. rewrite Htime. reflexivity.
  - intros u Hu. rewrite Hu in Hrun, Hprints. destruct Hprints as [value Hout].
    rewrite Hrun. simpl. split; [reflexivity |]. exists value. exact Hout.
Qed.
End MainContract.

(** ** The statements on concrete cases *)

Local Open Scope Q_scope.

(** The end-to-end case of the specification: outlet integral 2.0 over the
    measure 10.0 and the boundary value 0.4 give the efficiency 0.5. *)
Lemma combustion_efficiency_formula_witness :
  get_combustion_efficiency true parse_decimal
    (combustor 2 10 (300, 350) (1 # 10) 640 2) (ch4_case "value" (FNum (4 # 10)))
  = ([Div OutletAverage 2 10; Div InletRatio (2 / 10) (4 # 10)],
     Return (1 - 2 / 10 / (4 # 10))) /\
  1 - 2 / 10 / (4 # 10) == 1 # 2.
Proof.
  destruct (combustion_efficiency_formula true parse_decimal
              (combustor 2 10 (300, 350) (1 # 10) 640 2)
              (ch4_case "value" (FNum (4 # 10))) 2 10 (4 # 10))
    as (Hrun & _ & _ & Hhalf).
  - vm_compute. reflexivity.
  - vm_compute. reflexivity.
  - lra.
  - lra.
  - lra.
  - split; [exact Hrun |]. apply Hhalf; reflexivity.
Defined.

(** A boundary file that gives the fuel inlet the value 0. *)
Lemma combustion_efficiency_zero_inlet_witness :
  get_combustion_efficiency true parse_decimal
    (combustor 2 10 (300, 350) (1 # 10) 640 2) (ch4_case "value" (FNum 0))
  = ([Div OutletAverage 2 10; Div InletRatio (2 / 10) 0], Raise ZeroDivisionError).
Proof.
  destruct (combustion_efficiency_zero_inlet true parse_decimal
              (combustor 2 10 (300, 350) (1 # 10) 640 2)
              (ch4_case "value" (FNum 0)) 0)
    as (_ & Hdiv).
  - vm_compute. reflexivity.
  - reflexivity.
  - apply Hdiv; [vm_compute; reflexivity | lra].
Defined.

(** The synthetic case with [T_avg = T_inlet]: 600 over the volume 2 and
    the default inlet temperature 300. *)
Lemma pattern_factor_penalty_witness :
  get_pattern_factor true parse_decimal
    (combustor 2 10 (300, 350) (1 # 10) 600 2) (ch4_case "value" (FNum (4 # 10)))
  = ([Div VolumeAverage 600 2], Return 999).
Proof.
  destruct (pattern_factor_penalty true parse_decimal
              (combustor 2 10 (300, 350) (1 # 10) 600 2)
              (ch4_case "value" (FNum (4 # 10))) 300 350 600 2 300)
    as (_ & Hpenalty & _).
  - reflexivity.
  - reflexivity.
  - reflexivity.
  - lra.
  - vm_compute. reflexivity.
  - apply Hpenalty. vm_compute. discriminate.
Defined.

(** A case whose maximum temperature is the inlet temperature. *)
Lemma temperature_rise_floor_witness :
  get_temperature_rise_efficiency true parse_decimal
    (combustor 2 10 (300, 300) (1 # 10) 600 2) (ch4_case "value" (FNum (4 # 10)))
  = ([Div VolumeAverage 600 2], Return 0).
Proof.
  destruct (temperature_rise_floor true parse_decimal
              (combustor 2 10 (300, 300) (1 # 10) 600 2)
              (ch4_case "value" (FNum (4 # 10))) 300 300 600 2 300)
    as (_ & Hfloor & _).
  - reflexivity.
  - reflexivity.
  - reflexivity.
  - lra.
  - vm_compute. reflexivity.
  - apply Hfloor. vm_compute. discriminate.
Defined.

(** An outlet of area 0, and a domain of volume 0. *)
Lemma degenerate_measure_raises_witness :
  get_combustion_efficiency true parse_decimal
    (combustor 2 0 (300, 350) (1 # 10) 640 0) (ch4_case "value" (FNum (4 # 10)))
  = ([], Raise (ValueError (InvalidOutletArea 0))) /\
  get_ch4_domain_average
    (combustor 2 0 (300, 350) (1 # 10) 640 0) (ch4_case "value" (FNum (4 # 10)))
  = ([], Raise (ValueError (InvalidVolume 0))).
Proof.
  destruct (degenerate_measure_raises true parse_decimal
              (combustor 2 0 (300, 350) (1 # 10) 640 0)
              (ch4_case "value" (FNum (4 # 10))))
    as (Harea & Hvolume & _ & _).
  split.
  - apply (Harea 2 0); [vm_compute; reflexivity | lra].
  - apply (Hvolume (1 # 10) 0); [reflexivity | reflexivity | lra].
Defined.

Local Close Scope Q_scope.

(** A fourth argument [--time=soon]: the error line and the trace. *)
Lemma main_failure_paths_witness :
  run true parse_decimal unparsable_time_argv one_case =
    {| exit_code := 1; stdout := [];
       stderr := [ErrorLine (ValueError (CouldNotConvertToFloat "soon"));
                  TracebackHeader;
                  Traceback (ValueError (CouldNotConvertToFloat "soon"))] |}.
Proof.
  destruct (main_failure_paths true parse_decimal unparsable_time_argv one_case)
    as (_ & _ & Htime & _).
  apply (Htime "compute_metric.py" "case" "pattern_factor" "--time=soon" "soon");
    reflexivity.
Defined.

(** C7 (as stated) fails.  With too few arguments the process exits with
    status 1 after the usage lines, and with a fourth argument that does
    not start with [--time=] it exits with status 1 after writing nothing:
    in neither run does standard error hold an error line and a trace. *)
Lemma main_failure_report_counterexample :
  (exit_code (run true parse_decimal usage_argv one_case) = 1%Z /\
   stderr (run true parse_decimal usage_argv one_case) =
     [UsageLine; AvailableMetricsLine; OptionalTimeLine] /\
   ~ reports_failure (run true parse_decimal usage_argv one_case)) /\
  (exit_code (run true parse_decimal malformed_time_argv one_case) = 1%Z /\
   stderr (run true parse_decimal malformed_time_argv one_case) = [] /\
   ~ reports_failure (run true parse_decimal malformed_time_argv one_case)).
Proof.
  split; (split; [reflexivity | split; [reflexivity |]]).
  - intros (_ & _ & e & Herror & _). simpl in Herror.
    destruct Herror as [Hline | [Hline | [Hline | []]]]; discriminate.
  - intros (_ & _ & e & [] & _).
Qed.

(** ** The scenarios of the specification in binary64 arithmetic

    The same definitions, run on the kernel's binary64 numbers. *)

Lemma binary64_combustion_efficiency (float_of_string : string -> option float) :
  get_combustion_efficiency true float_of_string
    (combustor 2 10 (300, 350) 0.1 640 2)%float
    (ch4_case "value" (FNum 0.4%float))
  = ([Div OutletAverage 2 10; Div InletRatio 0.2 0.4]%float, Return 0.5%float) /\
  get_combustion_efficiency true float_of_string
    (combustor 0 10 (300, 350) 0.1 640 2)%float
    (ch4_case "value" (FNum 0.4%float))
  = ([Div OutletAverage 0 10; Div InletRatio 0 0.4]%float, Return 1%float) /\
  get_combustion_efficiency true float_of_string
    (combustor 2 10 (300, 350) 0.1 640 2)%float
    (ch4_case "value" (FNum 0%float))
  = ([Div OutletAverage 2 10; Div InletRatio 0.2 0]%float, Raise ZeroDivisionError).
Proof. repeat split; vm_compute; reflexivity. Qed.

Lemma binary64_sentinels (float_of_string : string -> option float) :
  get_pattern_factor true float_of_string
    (combustor 2 10 (300, 350) 0.1 600 2)%float
    (ch4_case "value" (FNum 0.4%float))
  = ([Div VolumeAverage 600 2]%float, Return 999%float) /\
  get_temperature_rise_efficiency true float_of_string
    (combustor 2 10 (300, 300) 0.1 600 2)%float
    (ch4_case "value" (FNum 0.4%float))
  = ([Div VolumeAverage 600 2]%float, Return 0%float) /\
  get_combustion_efficiency true float_of_string
    (combustor 2 0 (300, 350) 0.1 640 2)%float
    (ch4_case "value" (FNum 0.4%float))
  = ([], Raise (ValueError (InvalidOutletArea 0%float))).
Proof. repeat split; vm_compute; reflexivity. Qed.

Lemma binary64_select_time :
  select_time (Some 0.2%float) [0; 0.1; 0.25; 0.5]%float
  = ([Stderr (WarningLine 0.2 0.25)]%float, Return 0.25%float) /\
  select_time None [0; 0.1; 0.25; 0.5]%float = ([], Return 0.5%float) /\
  select_time (Some 0.5%float) [0; 0.1; 0.25; 0.5]%float = ([], Return 0.5%float).
Proof. repeat split; vm_compute; reflexivity. Qed.

(** * Further properties of the script *)

(** ** Strings *)

Lemma startswith_spec (p s : string) :
  startswith p s = true <-> exists r, s = String.append p r.
Proof.
  revert s. induction p as [| a p IH]; intros s; simpl.
  - split; [intros _; exists s; reflexivity | reflexivity].
  - destruct s as [| b s].
    + split; [discriminate | intros [r Hr]; discriminate].
    + rewrite andb_true_iff, Ascii.eqb_eq, IH. split.
      * intros [-> [r ->]]. exists r. reflexivity.
      * intros [r Hr]. injection Hr as -> ->. split; [reflexivity | exists r; reflexivity].
Qed.

Lemma str_in_spec (needle hay : string) :
  str_in needle hay = true <->
  exists a b, hay = String.append a (String.append needle b).
Proof.
  induction hay as [| c hay IH].
  - simpl. rewrite orb_false_r, startswith_spec. split.
    + intros [r Hr]. exists EmptyString, r. exact Hr.
    + intros [[| a0 a] [b Hb]]; [exists b; exact Hb | discriminate].
  - simpl. rewrite orb_true_iff, startswith_spec, IH. split.
    + intros [[r Hr] | (a & b & Hab)].
      * exists EmptyString, r. exact Hr.
      * exists (String c a), b. simpl. rewrite Hab. reflexivity.
    + intros [[| a0 a] [b Hb]].
      * left. exists b. exact Hb.
      * right. simpl in Hb. injection Hb as -> ->. exists a, b. reflexivity.
Qed.

Lemma string_append_assoc (a b c : string) :
  String.append (String.append a b) c = String.append a (String.append b c).
Proof.
  induction a as [| x a IH]; [reflexivity |].
  change (String x (String.append (String.append a b) c) =
          String x (String.append a (String.append b c))).
  rewrite IH. reflexivity.
Qed.

Lemma str_in_trans (a b c : string) :
  str_in a b = true -> str_in b c = true -> str_in a c = true.
Proof.
  rewrite !str_in_spec. intros (p & q & Hb) (r & t & Hc). subst b c.
  exists (String.append r p), (String.append q t).
  rewrite (string_append_assoc r p), (string_append_assoc p),
    (string_append_assoc a q t).
  reflexivity.
Qed.

Lemma str_split_free (sep : ascii) (s : string) :
  free_of sep s = true -> str_split sep s = [s].
Proof.
  induction s as [| c s IH]; simpl; [reflexivity |].
  rewrite andb_true_iff, negb_true_iff. intros [Hc Hs].
  rewrite Hc, (IH Hs). reflexivity.
Qed.

Lemma str_split_append (sep : ascii) (a b : string) :
  free_of sep a = true ->
  str_split sep (String.append a (String sep b)) = a :: str_split sep b.
Proof.
  induction a as [| c a IH]; simpl.
  - intros _. rewrite Ascii.eqb_refl. reflexivity.
  - rewrite andb_true_iff, negb_true_iff. intros [Hc Ha].
    rewrite Hc, (IH Ha). reflexivity.
Qed.

(** ** The boundary-condition reader, continued *)

Section ReaderFurther.
Context {F : Type}.
Variable float_of_string : string -> option F.

(** What the reader returns for each shape of the resolved value (lines
    82-90), foamlib being available: a number as it is; a one-element
    list through its element; a string through [float], or the fallback
    when [float] rejects it; a sub-dictionary with a single entry gives
    the fallback, because [value[0]] raises [KeyError]. *)
Theorem read_boundary_condition_by_shape (case_dir : @CaseDir F)
    (field_name patch_name : string) (fallback_value : pyval F)
    (value : @FoamData F) :
  result (resolve_value case_dir field_name patch_name) = Return (Found value) ->
  let read :=
    read_boundary_condition true float_of_string case_dir field_name patch_name
      fallback_value in
  (forall x, value = FNum x -> read = ([], Return (PFloat x))) /\
  (forall x, value = FSeq [FNum x] -> read = ([], Return (PFloat x))) /\
  (forall s x, value = FStr s \/ value = FSeq [FStr s] ->
     float_of_string s = Some x -> read = ([], Return (PFloat x))) /\
  (forall s, value = FStr s \/ value = FSeq [FStr s] ->
     float_of_string s = None -> read = ([], Return fallback_value)) /\
  (forall d, value = FDict d -> size d = 1 -> read = ([], Return fallback_value)) /\
  (forall l, value = FSeq [FSeq l] -> read = ([], Return fallback_value)).
Proof.
  intros Hres read. subst read.
  rewrite (read_boundary_condition_Found _ _ _ _ _ _ Hres).
  repeat split.
  - intros x ->. reflexivity.
  - intros x ->. reflexivity.
  - intros s x [-> | ->] Hparse; unfold convert_value; simpl; rewrite Hparse;
      reflexivity.
  - intros s [-> | ->] Hparse; unfold convert_value; simpl; rewrite Hparse;
      reflexivity.
  - intros d -> Hsize. unfold convert_value. simpl. rewrite Hsize. reflexivity.
  - intros l ->. reflexivity.
Qed.

(** A field file that exists under [0.orig] is the one that is read: what
    lies under [0] has no influence, and an unreadable file under
    [0.orig] gives the fallback even when the file under [0] is good
    (lines 55-60). *)
Theorem orig_file_shadows_zero_file (foamlib : bool) (case_dir other : @CaseDir F)
    (field_name patch_name : string) (fallback_value : pyval F)
    (foam_file : @FoamFile F) :
  file_at case_dir "0.orig" field_name = Some foam_file ->
  file_at other "0.orig" field_name = Some foam_file ->
  read_boundary_condition foamlib float_of_string case_dir field_name patch_name
    fallback_value =
  read_boundary_condition foamlib float_of_string other field_name patch_name
    fallback_value /\
  (foam_file = Unreadable ->
   read_boundary_condition foamlib float_of_string case_dir field_name patch_name
     fallback_value = ([], Return fallback_value)).
Proof.
  intros Hcase Hother.
  assert (Hfile : forall d, file_at d "0.orig" field_name = Some foam_file ->
                            field_file d field_name = Some foam_file).
  { intros d Hd. unfold field_file. rewrite Hd. reflexivity. }
  split.
  - unfold read_boundary_condition, read_boundary_condition_try, resolve_value.
    rewrite (Hfile _ Hcase), (Hfile _ Hother). reflexivity.
  - intros ->.
    unfold read_boundary_condition, read_boundary_condition_try, resolve_value.
    rewrite (Hfile _ Hcase). destruct foamlib; reflexivity.
Qed.

(** Without foamlib nothing is read (lines 51-52): the reader returns the
    fallback whatever the case holds, and the inlet conditions are the
    defaults 0.1561 and 300.0.  A case without the two field files gives
    the same defaults with foamlib (lines 93-109). *)
Theorem inlet_conditions_defaults `{PyFloat F} (foamlib : bool)
    (case_dir : @CaseDir F) :
  foamlib = false \/
  (field_file case_dir "CH4" = None /\ field_file case_dir "T" = None) ->
  get_inlet_conditions foamlib float_of_string case_dir =
    ([], Return {| CH4_inlet := PFloat lit_0_1561; T_inlet := PFloat lit_300 |}).
Proof.
  intros [-> | [Hch4 Ht]].
  - reflexivity.
  - unfold get_inlet_conditions.
    rewrite !(read_boundary_condition_UseFallback foamlib float_of_string)
      by (apply resolve_value_file_absent; assumption).
    reflexivity.
Qed.
End ReaderFurther.

Lemma read_boundary_condition_by_shape_witness :
  read_boundary_condition true parse_decimal (ch4_case "value" (FStr "0.25"))
    "CH4" "inletFuel" (PFloat (1561 # 10000)%Q)
  = ([], Return (PFloat (25 # 100)%Q)).
Proof.
  destruct (read_boundary_condition_by_shape parse_decimal
              (ch4_case "value" (FStr "0.25")) "CH4" "inletFuel"
              (PFloat (1561 # 10000)%Q) (FStr "0.25"))
    as (_ & _ & Hstring & _).
  - vm_compute. reflexivity.
  - apply (Hstring "0.25"); [left; reflexivity | reflexivity].
Defined.

Lemma orig_file_shadows_zero_file_witness :
  read_boundary_condition true parse_decimal
    (case_of shadowed_files [] empty_pipeline) "CH4" "inletFuel"
    (PFloat (1561 # 10000)%Q)
  = read_boundary_condition true parse_decimal
      (case_of unreadable_orig_only [] empty_pipeline) "CH4" "inletFuel"
      (PFloat (1561 # 10000)%Q) /\
  read_boundary_condition true parse_decimal
    (case_of shadowed_files [] empty_pipeline) "CH4" "inletFuel"
    (PFloat (1561 # 10000)%Q)
  = ([], Return (PFloat (1561 # 10000)%Q)).
Proof.
  destruct (orig_file_shadows_zero_file parse_decimal true
              (case_of shadowed_files [] empty_pipeline)
              (case_of unreadable_orig_only [] empty_pipeline)
              "CH4" "inletFuel" (PFloat (1561 # 10000)%Q) Unreadable)
    as (Hsame & Hunreadable).
  - reflexivity.
  - reflexivity.
  - split; [exact Hsame | apply Hunreadable; reflexivity].
Defined.

Lemma inlet_conditions_defaults_witness :
  get_inlet_conditions true parse_decimal (case_of no_files [] empty_pipeline) =
    ([], Return {| CH4_inlet := PFloat (1561 # 10000)%Q; T_inlet := PFloat 300%Q |}).
Proof.
  exact (inlet_conditions_defaults parse_decimal true
           (case_of no_files [] empty_pipeline)
           (or_intror (conj eq_refl eq_refl))).
Defined.

(** ** Locating the outlet *)

Section OutletSearch.
Context {F : Type} `{PyFloat F}.

Lemma find_outlet_block_name_Some (blocks : list string) (block : string) :
  find_outlet_block_name blocks = Some block ->
  In block blocks /\ str_in "outlet" (lower block) = true.
Proof.
  induction blocks as [| b rest IH]; simpl; [discriminate |].
  destruct (str_in "outlet" (lower b)) eqn:Hb.
  - intros [= <-]. split; [left; reflexivity | exact Hb].
  - intros Hrest. destruct (IH Hrest) as [Hin Hmatch].
    split; [right; exact Hin | exact Hmatch].
Qed.

Lemma find_outlet_block_name_None (blocks : list string) :
  find_outlet_block_name blocks = None <->
  (forall block, In block blocks -> str_in "outlet" (lower block) = false).
Proof.
  induction blocks as [| b rest IH]; simpl.
  - split; [intros _ block [] | reflexivity].
  - destruct (str_in "outlet" (lower b)) eqn:Hb.
    + split; [discriminate |]. intros Hall.
      rewrite (Hall b (or_introl eq_refl)) in Hb. discriminate.
    + rewrite IH. split.
      * intros Hall block [<- | Hin]; [exact Hb | apply Hall, Hin].
      * intros Hall block Hin. apply Hall. right. exact Hin.
Qed.

Lemma lower_block_name_cases (meta : metadata) :
  (exists name, lower_block_name (F := F) meta = ret name) \/
  lower_block_name (F := F) meta = raise AttributeError.
Proof. destruct meta as [| [name |]]; simpl; eauto. Qed.

Lemma search_sub_blocks_cons (meta : metadata) (sub_block : option vtkDataObject)
    (rest : list (metadata * option (@vtkDataObject F))) :
  search_sub_blocks ((meta, sub_block) :: rest) =
  bind (lower_block_name meta)
    (fun sub_name =>
       if str_in "outlet" sub_name then ret sub_block else search_sub_blocks rest).
Proof. reflexivity. Qed.

Lemma search_sub_blocks_sound
    (sub_blocks : list (metadata * option (@vtkDataObject F)))
    (block : @vtkDataObject F) :
  result (search_sub_blocks sub_blocks) = Return (Some block) ->
  exists meta name,
    In (meta, Some block) sub_blocks /\
    lower_block_name (F := F) meta = ret name /\
    str_in "outlet" name = true.
Proof.
  induction sub_blocks as [| [meta sub_block] rest IH].
  - discriminate.
  - rewrite search_sub_blocks_cons.
    destruct (lower_block_name_cases meta) as [[name Hname] | Hraise].
    + rewrite Hname, bind_ret_l.
      destruct (str_in "outlet" name) eqn:Hmatch.
      * intros [= ->]. exists meta, name.
        split; [left; reflexivity | split; assumption].
      * intros Hrest. destruct (IH Hrest) as (m & n & Hin & Hn & Hm).
        exists m, n. split; [right; exact Hin | split; assumption].
    + rewrite Hraise. discriminate.
Qed.

Lemma find_outlet_block_cons (outlet_block_name : string) (meta : metadata)
    (block : option vtkDataObject)
    (rest : list (metadata * option (@vtkDataObject F))) :
  find_outlet_block outlet_block_name ((meta, block) :: rest) =
  bind (lower_block_name meta)
    (fun block_name =>
       if str_in (lower outlet_block_name) block_name then ret block
       else
         match block with
         | Some (MultiBlock sub_blocks) =>
             bind (search_sub_blocks sub_blocks)
               (fun outlet_block =>
                  match outlet_block with
                  | Some found => ret (Some found)
                  | None => find_outlet_block outlet_block_name rest
                  end)
         | _ => find_outlet_block outlet_block_name rest
         end).
Proof. reflexivity. Qed.

Lemma named_outlet_cons (entry : metadata * option (@vtkDataObject F))
    (rest : list (metadata * option (@vtkDataObject F))) (block : @vtkDataObject F) :
  named_outlet rest block -> named_outlet (entry :: rest) block.
Proof.
  intros [(meta & name & Hin & Hname & Hmatch)
         | (meta & subs & sub_meta & name & Hin & Hsub & Hname & Hmatch)].
  - left. exists meta, name. split; [right; exact Hin | split; assumption].
  - right. exists meta, subs, sub_meta, name.
    split; [right; exact Hin | repeat split; assumption].
Qed.

Lemma find_outlet_block_sound (outlet_block_name : string)
    (full_data : list (metadata * option (@vtkDataObject F)))
    (block : @vtkDataObject F) :
  str_in "outlet" (lower outlet_block_name) = true ->
  result (find_outlet_block outlet_block_name full_data) = Return (Some block) ->
  named_outlet full_data block.
Proof.
  intros Hregion. induction full_data as [| [meta top] rest IH].
  - discriminate.
  - rewrite find_outlet_block_cons.
    destruct (lower_block_name_cases meta) as [[name Hname] | Hraise];
      [| rewrite Hraise; discriminate].
    rewrite Hname, bind_ret_l.
    destruct (str_in (lower outlet_block_name) name) eqn:Hmatch.
    + intros [= ->]. left. exists meta, name.
      split; [left; reflexivity | split; [exact Hname |]].
      exact (str_in_trans _ _ _ Hregion Hmatch).
    + destruct top as [[d | sub_blocks] |];
        try (intros Hrest; apply named_outlet_cons, IH, Hrest).
      destruct (search_sub_blocks sub_blocks) as [tr [[found |] | e]] eqn:Hsub.
      * rewrite (bind_return _ tr (Some found)) by reflexivity. simpl.
        intros [= ->].
        destruct (search_sub_blocks_sound sub_blocks block) as (m & n & Hin & Hn & Hm).
        { rewrite Hsub. reflexivity. }
        right. exists meta, sub_blocks, m, n.
        split; [left; reflexivity | repeat split; assumption].
      * rewrite (bind_return _ tr None) by reflexivity. simpl.
        intros Hrest. apply named_outlet_cons, IH, Hrest.
      * discriminate.
Qed.

(** Whenever the outlet stage of [get_combustion_efficiency] delivers an
    integral and an area (lines 123-211), they are the integrated [CH4] and
    [Area] of a leaf block that stands in the fetched tree, at the top
    level or one level down, under a name containing [outlet] in any
    letter case; cell data is consulted before point data, and the block
    itself carries a [CH4] array. *)
Theorem integrate_outlet_sound (case_reader : @CaseReader F) (I A : F) :
  result (integrate_outlet case_reader) = Return (I, A) ->
  exists outlet : vtkDataSet,
    named_outlet (Fetch case_reader) (DataSet outlet) /\
    (GetArray "CH4" (GetCellData outlet) <> None \/
     GetArray "CH4" (GetPointData outlet) <> None) /\
    match GetArray "CH4" (IntegratedCellData outlet) with
    | Some a => a = I
    | None => GetArray "CH4" (IntegratedPointData outlet) = Some I
    end /\
    match GetArray "Area" (IntegratedCellData outlet) with
    | Some a => a = A
    | None => GetArray "Area" (IntegratedPointData outlet) = Some A
    end.
Proof.
  unfold integrate_outlet.
  destruct (find_outlet_block_name (MeshRegions case_reader)) as [region |] eqn:Hregion;
    [| discriminate].
  apply find_outlet_block_name_Some in Hregion. destruct Hregion as [_ Hregion].
  destruct (find_outlet_block region (Fetch case_reader)) as [tr [found | e]] eqn:Hfind;
    [| discriminate].
  rewrite (bind_return _ tr found) by reflexivity. simpl.
  destruct found as [[outlet | subs] |]; try discriminate.
  assert (Hnamed : named_outlet (Fetch case_reader) (DataSet outlet)).
  { apply (find_outlet_block_sound region); [exact Hregion |].
    rewrite Hfind. reflexivity. }
  destruct (GetArray "CH4" (GetCellData outlet)) as [raw |] eqn:Hcell.
  - destruct (GetArray "CH4" (IntegratedCellData outlet)) as [c |] eqn:Hic;
      [| destruct (GetArray "CH4" (IntegratedPointData outlet)) as [c |] eqn:Hip;
         [| discriminate]];
      (destruct (GetArray "Area" (IntegratedCellData outlet)) as [a |] eqn:Hac;
       [| destruct (GetArray "Area" (IntegratedPointData outlet)) as [a |] eqn:Hap;
          [| discriminate]]);
      intros [= <- <-]; exists outlet; rewrite ?Hic, ?Hac, ?Hcell;
      repeat split; auto; left; discriminate.
  - destruct (GetArray "CH4" (GetPointData outlet)) as [raw |] eqn:Hpoint;
      [| discriminate].
    destruct (GetArray "CH4" (IntegratedCellData outlet)) as [c |] eqn:Hic;
      [| destruct (GetArray "CH4" (IntegratedPointData outlet)) as [c |] eqn:Hip;
         [| discriminate]];
      (destruct (GetArray "Area" (IntegratedCellData outlet)) as [a |] eqn:Hac;
       [| destruct (GetArray "Area" (IntegratedPointData outlet)) as [a |] eqn:Hap;
          [| discriminate]]);
      intros [= <- <-]; exists outlet; rewrite ?Hic, ?Hac, ?Hpoint;
      repeat split; auto; right; discriminate.
Qed.

(** When no mesh region has a name containing [outlet] in any letter
    case, the outlet stage raises the [ValueError] that lists the regions
    (lines 131-140), and so does [get_combustion_efficiency], without
    looking at the fetched data; a region that does contain it is found,
    the first one in the list. *)
Theorem no_outlet_region_fails (foamlib : bool)
    (float_of_string : string -> option F)
    (case_reader : @CaseReader F) (case_dir : @CaseDir F) :
  (find_outlet_block_name (MeshRegions case_reader) = None <->
   forall block, In block (MeshRegions case_reader) ->
                 str_in "outlet" (lower block) = false) /\
  (find_outlet_block_name (MeshRegions case_reader) = None ->
   integrate_outlet case_reader =
     ([], Raise (ValueError (OutletPatchNotFound (MeshRegions case_reader)))) /\
   get_combustion_efficiency foamlib float_of_string case_reader case_dir =
     ([], Raise (ValueError (OutletPatchNotFound (MeshRegions case_reader))))) /\
  (forall before block after,
     MeshRegions case_reader = before ++ block :: after ->
     (forall b, In b before -> str_in "outlet" (lower b) = false) ->
     str_in "outlet" (lower block) = true ->
     find_outlet_block_name (MeshRegions case_reader) = Some block).
Proof.
  split; [apply find_outlet_block_name_None | split].
  - intros Hnone.
    assert (Hint : integrate_outlet case_reader =
              ([], Raise (ValueError (OutletPatchNotFound (MeshRegions case_reader))))).
    { unfold integrate_outlet. rewrite Hnone. reflexivity. }
    split; [exact Hint |].
    destruct (get_inlet_conditions_returns foamlib float_of_string case_dir)
      as (c & t & _ & _ & Hget).
    unfold get_combustion_efficiency.
    rewrite (bind_silent_return _ _ _ Hget), (bind_raise _ _ _ _ Hint).
    reflexivity.
  - intros before block after -> Hbefore Hblock.
    induction before as [| b before IH]; simpl.
    + rewrite Hblock. reflexivity.
    + rewrite (Hbefore b (or_introl eq_refl)). apply IH.
      intros b' Hin. apply Hbefore. right. exact Hin.
Qed.
End OutletSearch.

Lemma integrate_outlet_sound_witness :
  exists outlet : @vtkDataSet Q,
    named_outlet (Fetch (combustor 2 10 (300, 350) (1 # 10) 640 2)%Q) (DataSet outlet) /\
    (GetArray "CH4" (GetCellData outlet) <> None \/
     GetArray "CH4" (GetPointData outlet) <> None) /\
    match GetArray "CH4" (IntegratedCellData outlet) with
    | Some a => a = 2%Q
    | None => GetArray "CH4" (IntegratedPointData outlet) = Some 2%Q
    end /\
    match GetArray "Area" (IntegratedCellData outlet) with
    | Some a => a = 10%Q
    | None => GetArray "Area" (IntegratedPointData outlet) = Some 10%Q
    end.
Proof.
  apply (integrate_outlet_sound (combustor 2 10 (300, 350) (1 # 10) 640 2)%Q).
  vm_compute. reflexivity.
Defined.

(** ** The evaluators over exact arithmetic, continued *)

Local Open Scope Q_scope.

Section EvaluatorsFurther.
Variable FOAMLIB_AVAILABLE : bool.
Variable float_of_string : string -> option Q.

(** [get_ch4_domain_average] (lines 249-274): a missing [CH4] row is
    reported before a missing [Volume] row; with both rows and a positive
    volume the result is the integral over the volume, after that one
    division; it is non-negative when the integral is, and a uniform
    field [v] (integral [v * volume]) averages to [v]. *)
Theorem ch4_domain_average_spec (case_reader : @CaseReader Q) (case_dir : @CaseDir Q) :
  (GetArray "CH4" (IntegrateVariables case_reader) = None ->
   get_ch4_domain_average case_reader case_dir =
     ([], Raise (ValueError CH4NotInIntegratedData))) /\
  (forall ch4_integrated,
     GetArray "CH4" (IntegrateVariables case_reader) = Some ch4_integrated ->
     GetArray "Volume" (IntegrateVariables case_reader) = None ->
     get_ch4_domain_average case_reader case_dir =
       ([], Raise (ValueError VolumeNotInIntegratedData))) /\
  (forall ch4_integrated volume,
     GetArray "CH4" (IntegrateVariables case_reader) = Some ch4_integrated ->
     GetArray "Volume" (IntegrateVariables case_reader) = Some volume ->
     0 < volume ->
     get_ch4_domain_average case_reader case_dir =
       ([Div VolumeAverage ch4_integrated volume], Return (ch4_integrated / volume)) /\
     (0 <= ch4_integrated -> 0 <= ch4_integrated / volume) /\
     (forall v, ch4_integrated == v * volume -> ch4_integrated / volume == v)).
Proof.
  split; [| split].
  - intros Hc. unfold get_ch4_domain_average. rewrite Hc. reflexivity.
  - intros c Hc Hv. unfold get_ch4_domain_average. rewrite Hc, Hv. reflexivity.
  - intros c volume Hc Hv Hpos. split; [| split].
    + unfold get_ch4_domain_average.
      rewrite Hc, Hv, (fleb_positive volume Hpos).
      rewrite (truediv_nonzero VolumeAverage c volume) by lra.
      reflexivity.
    + intros Hnonneg. apply Qle_shift_div_l; [exact Hpos | lra].
    + intros v Huniform. rewrite Huniform. field. lra.
Qed.

(** When the reader hands back [None] for an inlet value (the empty-list
    case of [read_boundary_condition]), the evaluators that use the value
    end in [TypeError] at the first arithmetic on it: the efficiency after
    its averaging division (line 220), the two temperature metrics at the
    subtraction of lines 329 and 392. *)
Theorem None_inlet_raises_TypeError (case_reader : @CaseReader Q)
    (case_dir : @CaseDir Q) :
  (forall I A,
     result (read_boundary_condition FOAMLIB_AVAILABLE float_of_string case_dir
               "CH4" "inletFuel" (PFloat lit_0_1561)) = Return PNone ->
     result (integrate_outlet case_reader) = Return (I, A) -> 0 < A ->
     get_combustion_efficiency FOAMLIB_AVAILABLE float_of_string case_reader
       case_dir = ([Div OutletAverage I A], Raise TypeError)) /\
  (forall T_min T_max T_integrated volume,
     result (read_boundary_condition FOAMLIB_AVAILABLE float_of_string case_dir
               "T" "inletAir" (PFloat lit_300)) = Return PNone ->
     GetArray "T" (CellDataInformation case_reader) = Some (T_min, T_max) ->
     GetArray "T" (IntegrateVariables case_reader) = Some T_integrated ->
     GetArray "Volume" (IntegrateVariables case_reader) = Some volume ->
     0 < volume ->
     get_pattern_factor FOAMLIB_AVAILABLE float_of_string case_reader case_dir =
       ([Div VolumeAverage T_integrated volume], Raise TypeError) /\
     get_temperature_rise_efficiency FOAMLIB_AVAILABLE float_of_string case_reader
       case_dir = ([Div VolumeAverage T_integrated volume], Raise TypeError)).
Proof.
  destruct (get_inlet_conditions_returns FOAMLIB_AVAILABLE float_of_string case_dir)
    as (c & t & Hc & Ht & Hget).
  split.
  - intros I A Hread Hint HA. rewrite Hc in Hread. injection Hread as ->.
    apply integrate_outlet_trace in Hint.
    unfold get_combustion_efficiency.
    rewrite (bind_silent_return _ _ _ Hget). simpl CH4_inlet.
    rewrite (bind_silent_return _ _ _ Hint).
    rewrite (fleb_positive A HA).
    rewrite (truediv_nonzero OutletAverage I A) by lra.
    reflexivity.
  - intros T_min T_max T_integrated volume Hread Hrange HT HV Hpos.
    rewrite Ht in Hread. injection Hread as ->.
    pose proof (temperature_statistics_valid case_reader T_min T_max T_integrated
                  volume Hrange HT HV Hpos) as Hstat.
    unfold get_pattern_factor, get_temperature_rise_efficiency.
    rewrite !(bind_return _ _ _ _ Hstat).
    rewrite !(bind_silent_return _ _ _ Hget). split; reflexivity.
Qed.

(** A fuel-inlet entry with two or more components does not stop the
    efficiency: the reader falls back to 0.1561 and the evaluator returns
    [1 - (I/A)/0.1561] (lines 101 and 220). *)
Theorem vector_inlet_uses_default (case_reader : @CaseReader Q)
    (case_dir : @CaseDir Q) (value : @FoamData Q) (n : nat) (I A : Q) :
  result (resolve_value case_dir "CH4" "inletFuel") = Return (Found value) ->
  iterable_of_length value n -> (2 <= n)%nat ->
  result (integrate_outlet case_reader) = Return (I, A) -> 0 < A ->
  get_combustion_efficiency FOAMLIB_AVAILABLE float_of_string case_reader case_dir =
    ([Div OutletAverage I A; Div InletRatio (I / A) (1561 # 10000)],
     Return (1 - I / A / (1561 # 10000))).
Proof.
  intros Hres Hlen Hn Hint HA.
  assert (Hread : read_boundary_condition FOAMLIB_AVAILABLE float_of_string case_dir
                    "CH4" "inletFuel" (PFloat lit_0_1561) =
                  ([], Return (PFloat lit_0_1561))).
  { unfold read_boundary_condition, read_boundary_condition_try.
    rewrite (bind_silent_return _ _ _ (resolve_value_trace _ _ _ _ Hres)).
    rewrite (convert_value_multi_component float_of_string value n Hlen Hn).
    destruct FOAMLIB_AVAILABLE; reflexivity. }
  destruct (get_inlet_conditions_returns FOAMLIB_AVAILABLE float_of_string case_dir)
    as (c & t & Hc & _ & Hget).
  rewrite Hc in Hread. injection Hread as ->.
  apply integrate_outlet_trace in Hint.
  unfold get_combustion_efficiency.
  rewrite (bind_silent_return _ _ _ Hget). simpl CH4_inlet.
  rewrite (bind_silent_return _ _ _ Hint).
  rewrite (fleb_positive A HA).
  rewrite (truediv_nonzero OutletAverage I A) by lra.
  rewrite (bind_return _ [Div OutletAverage I A] (I / A)) by reflexivity.
  simpl as_float. rewrite bind_ret_l.
  rewrite (truediv_nonzero InletRatio) by (simpl; lra).
  reflexivity.
Qed.
End EvaluatorsFurther.

Section Ranges.
Variable FOAMLIB_AVAILABLE : bool.
Variable float_of_string : string -> option Q.


(** The value [get_pattern_factor] returns for a valid case, and its
    range (lines 328-337): it is never negative when [T_max >= T_avg]; it
    is 0, not positive, for a uniform field hotter than the inlet; and
    the penalty 999.0 is no upper bound, a small enough temperature rise
    gives more. *)
Theorem pattern_factor_range (case_reader : @CaseReader Q) (case_dir : @CaseDir Q)
    (T_min T_max T_integrated volume T_in : Q) :
  GetArray "T" (CellDataInformation case_reader) = Some (T_min, T_max) ->
  GetArray "T" (IntegrateVariables case_reader) = Some T_integrated ->
  GetArray "Volume" (IntegrateVariables case_reader) = Some volume ->
  0 < volume ->
  result (read_boundary_condition FOAMLIB_AVAILABLE float_of_string case_dir
            "T" "inletAir" (PFloat lit_300)) = Return (PFloat T_in) ->
  let T_avg := T_integrated / volume in
  exists PF,
    result (get_pattern_factor FOAMLIB_AVAILABLE float_of_string case_reader
              case_dir) = Return PF /\
    (T_avg <= T_max -> 0 <= PF) /\
    (T_in < T_avg -> T_max == T_avg -> PF == 0) /\
    (T_in < T_avg -> 999 * (T_avg - T_in) < T_max - T_avg -> 999 < PF).
Proof.
  intros Hrange HT HV Hpos Hread T_avg.
  pose proof (temperature_statistics_valid case_reader T_min T_max T_integrated
                volume Hrange HT HV Hpos) as Hstat.
  rewrite (pattern_factor_any_float FOAMLIB_AVAILABLE float_of_string case_reader
             case_dir _ T_max T_avg T_in Hstat Hread).
  cbv zeta. destruct (fleb (fsub T_avg T_in) lit_0) eqn:Hden.
  - simpl in Hden. apply Qle_bool_iff in Hden.
    exists 999. split; [reflexivity |].
    repeat split; intros; simpl; lra.
  - apply fleb_false_positive in Hden. simpl in Hden.
    rewrite (fis_zero_false (fsub T_avg T_in)) by (simpl; lra).
    exists ((T_max - T_avg) / (T_avg - T_in)). split; [reflexivity |].
    repeat split.
    + intros Hmax. apply Qle_shift_div_l; [exact Hden | lra].
    + intros _ Heq. rewrite Heq. field. lra.
    + intros _ Hbig. apply Qlt_shift_div_l; [exact Hden | lra].
Qed.

(** The value [get_temperature_rise_efficiency] returns for a valid case,
    and its range (lines 391-399): at most 1 when [T_avg <= T_max], at
    least 0 when also [T_inlet <= T_avg]; but the floor 0.0 is no lower
    bound, a mean temperature below the inlet temperature with a maximum
    above it gives a negative result. *)
Theorem temperature_rise_range (case_reader : @CaseReader Q) (case_dir : @CaseDir Q)
    (T_min T_max T_integrated volume T_in : Q) :
  GetArray "T" (CellDataInformation case_reader) = Some (T_min, T_max) ->
  GetArray "T" (IntegrateVariables case_reader) = Some T_integrated ->
  GetArray "Volume" (IntegrateVariables case_reader) = Some volume ->
  0 < volume ->
  result (read_boundary_condition FOAMLIB_AVAILABLE float_of_string case_dir
            "T" "inletAir" (PFloat lit_300)) = Return (PFloat T_in) ->
  let T_avg := T_integrated / volume in
  exists eta_T,
    result (get_temperature_rise_efficiency FOAMLIB_AVAILABLE float_of_string
              case_reader case_dir) = Return eta_T /\
    (T_avg <= T_max -> eta_T <= 1) /\
    (T_in <= T_avg -> 0 <= eta_T) /\
    (T_avg < T_in -> T_in < T_max -> eta_T < 0).
Proof.
  intros Hrange HT HV Hpos Hread T_avg.
  pose proof (temperature_statistics_valid case_reader T_min T_max T_integrated
                volume Hrange HT HV Hpos) as Hstat.
  rewrite (temperature_rise_any_float FOAMLIB_AVAILABLE float_of_string case_reader
             case_dir _ T_max T_avg T_in Hstat Hread).
  cbv zeta. destruct (fleb (fsub T_max T_in) lit_0) eqn:Hden.
  - simpl in Hden. apply Qle_bool_iff in Hden.
    exists 0. split; [reflexivity |].
    repeat split; intros; simpl; lra.
  - apply fleb_false_positive in Hden. simpl in Hden.
    rewrite (fis_zero_false (fsub T_max T_in)) by (simpl; lra).
    exists ((T_avg - T_in) / (T_max - T_in)). split; [reflexivity |].
    repeat split.
    + intros Hmax. apply Qle_shift_div_r; [exact Hden | lra].
    + intros Hin. apply Qle_shift_div_l; [exact Hden | lra].
    + intros Hlow _. apply Qlt_shift_div_r; [exact Hden | lra].
Qed.
End Ranges.

Lemma ch4_domain_average_spec_witness :
  get_ch4_domain_average (combustor 2 10 (300, 350) (1 # 10) 640 2)
    (ch4_case "value" (FNum (4 # 10)))
  = ([Div VolumeAverage (1 # 10) 2], Return ((1 # 10) / 2)).
Proof.
  destruct (ch4_domain_average_spec (combustor 2 10 (300, 350) (1 # 10) 640 2)
              (ch4_case "value" (FNum (4 # 10)))) as (_ & _ & Hvalue).
  destruct (Hvalue (1 # 10) 2) as (Hrun & _); [reflexivity | reflexivity | lra |].
  exact Hrun.
Defined.

(** An empty list under [value] of the fuel inlet. *)
Lemma None_inlet_raises_TypeError_witness :
  get_combustion_efficiency true parse_decimal
    (combustor 2 10 (300, 350) (1 # 10) 640 2) (ch4_case "value" (FSeq []))
  = ([Div OutletAverage 2 10], Raise TypeError).
Proof.
  destruct (None_inlet_raises_TypeError true parse_decimal
              (combustor 2 10 (300, 350) (1 # 10) 640 2)
              (ch4_case "value" (FSeq []))) as (Hefficiency & _).
  apply Hefficiency; [vm_compute; reflexivity | vm_compute; reflexivity | lra].
Defined.

(** A velocity-like vector under [value] of the fuel inlet. *)
Lemma vector_inlet_uses_default_witness :
  get_combustion_efficiency true parse_decimal
    (combustor 2 10 (300, 350) (1 # 10) 640 2)
    (ch4_case "value" (FSeq [FNum 1; FNum 0; FNum 0]))
  = ([Div OutletAverage 2 10; Div InletRatio (2 / 10) (1561 # 10000)],
     Return (1 - 2 / 10 / (1561 # 10000))).
Proof.
  apply (vector_inlet_uses_default true parse_decimal
           (combustor 2 10 (300, 350) (1 # 10) 640 2)
           (ch4_case "value" (FSeq [FNum 1; FNum 0; FNum 0]))
           (FSeq [FNum 1; FNum 0; FNum 0]) 3 2 10).
  - vm_compute. reflexivity.
  - reflexivity.
  - lia.
  - vm_compute. reflexivity.
  - lra.
Defined.


(** A mean temperature one degree above the inlet and a peak of 2000: the
    pattern factor exceeds the penalty value. *)
Lemma pattern_factor_range_witness :
  exists PF,
    result (get_pattern_factor true parse_decimal
              (combustor 2 10 (300, 2000) (1 # 10) 602 2)
              (ch4_case "value" (FNum (4 # 10)))) = Return PF /\
    999 < PF.
Proof.
  destruct (pattern_factor_range true parse_decimal
              (combustor 2 10 (300, 2000) (1 # 10) 602 2)
              (ch4_case "value" (FNum (4 # 10))) 300 2000 602 2 300)
    as (PF & Hrun & _ & _ & Hbig).
  - reflexivity.
  - reflexivity.
  - reflexivity.
  - lra.
  - vm_compute. reflexivity.
  - exists PF. split; [exact Hrun |]. apply Hbig; vm_compute; reflexivity.
Defined.

(** A mean temperature of 290 under an inlet at 300 and a peak of 350:
    the temperature-rise efficiency is negative. *)
Lemma temperature_rise_range_witness :
  exists eta_T,
    result (get_temperature_rise_efficiency true parse_decimal
              (combustor 2 10 (280, 350) (1 # 10) 580 2)
              (ch4_case "value" (FNum (4 # 10)))) = Return eta_T /\
    eta_T < 0.
Proof.
  destruct (temperature_rise_range true parse_decimal
              (combustor 2 10 (280, 350) (1 # 10) 580 2)
              (ch4_case "value" (FNum (4 # 10))) 280 350 580 2 300)
    as (eta_T & Hrun & _ & _ & Hnegative).
  - reflexivity.
  - reflexivity.
  - reflexivity.
  - lra.
  - vm_compute. reflexivity.
  - exists eta_T. split; [exact Hrun |]. apply Hnegative; vm_compute; reflexivity.
Defined.

(** ** Time selection, continued *)

Lemma Qabs_self_difference (t : Q) : Qabs (t - t) == 0.
Proof.
  assert (Hzero : t - t == 0) by ring.
  rewrite Hzero. reflexivity.
Qed.

Lemma Qabs_le_0 (x : Q) : Qabs x <= 0 -> x == 0.
Proof. intros Hle. apply Qabs_Qle_condition in Hle. lra. Qed.

Lemma min_by_key_first (key : Q -> Q) (rest : list Q) (best : Q) :
  exists before after,
    best :: rest = before ++ min_by_key key best rest :: after /\
    forall x, In x before -> key (min_by_key key best rest) < key x.
Proof.
  revert best. induction rest as [| t rest IH]; intros best; simpl.
  - exists [], []. split; [reflexivity | intros x []].
  - destruct (Qltb (key t) (key best)) eqn:Hlt.
    + apply Qltb_true in Hlt.
      destruct (IH t) as (before & after & Hsplit & Hbefore).
      exists (best :: before), after. split.
      * simpl. f_equal. exact Hsplit.
      * intros x [<- | Hin]; [| apply Hbefore, Hin].
        pose proof (min_by_key_le_best key rest t). lra.
    + apply Qltb_false in Hlt.
      destruct (IH best) as (before & after & Hsplit & Hbefore).
      destruct before as [| b before].
      * simpl in Hsplit. injection Hsplit as Hbest Hrest.
        exists [], (t :: rest). split; [| intros x []].
        simpl. rewrite <- Hbest. reflexivity.
      * simpl in Hsplit. injection Hsplit as <- Hrest.
        exists (best :: t :: before), after. split.
        -- simpl. do 2 f_equal. exact Hrest.
        -- intros x [<- | [<- | Hin]].
           ++ apply Hbefore. left. reflexivity.
           ++ pose proof (Hbefore best (or_introl eq_refl)). lra.
           ++ apply Hbefore. right. exact Hin.
Qed.

(** A requested time that is in the series, the series holding no other
    representation of the same number, is selected as it is and without a
    warning; so requesting the last time of the series is the same as
    requesting none (lines 466-477). *)
Theorem exact_time_request (t first : Q) (others : list Q) :
  let series := first :: others in
  In t series ->
  (forall x, In x series -> x == t -> x = t) ->
  select_time (Some t) series = ([], Return t) /\
  (t = List.last series first ->
   select_time (Some t) series = select_time None series).
Proof.
  intros series Hin Hdistinct.
  assert (Hexact : select_time (Some t) series = ([], Return t)).
  { unfold select_time, series. cbv zeta.
    set (distance := fun x : Q => fabs (fsub x t)).
    assert (Hclosest : min_by_key distance first others = t).
    { apply Hdistinct; [apply min_by_key_In |].
      assert (Hmin : Qabs (min_by_key distance first others - t) <= Qabs (t - t))
        by exact (min_by_key_minimal distance others first t Hin).
      rewrite Qabs_self_difference in Hmin.
      apply Qabs_le_0 in Hmin. lra. }
    rewrite Hclosest.
    assert (Hquiet : fltb lit_1em6 (fabs (fsub t t)) = false).
    { change (Qltb (1 # 1000000) (Qabs (t - t)) = false).
      apply Qltb_false. rewrite Qabs_self_difference. lra. }
    rewrite Hquiet. reflexivity. }
  split; [exact Hexact |].
  intros Hlast. rewrite Hexact. unfold select_time, series.
  rewrite Hlast. unfold series. rewrite last_cons_default. reflexivity.
Qed.

(** Between two times equally near the request the earlier one of the
    series is selected: every time that precedes the selected one is
    strictly farther from the request (line 469). *)
Theorem select_time_prefers_earlier (t first : Q) (others : list Q) :
  let series := first :: others in
  let distance := fun x => Qabs (x - t) in
  exists closest before after,
    result (select_time (Some t) series) = Return closest /\
    series = before ++ closest :: after /\
    forall x, In x before -> distance closest < distance x.
Proof.
  intros series distance.
  destruct (min_by_key_first distance others first)
    as (before & after & Hsplit & Hbefore).
  exists (min_by_key distance first others), before, after.
  split; [| split; [exact Hsplit | exact Hbefore]].
  unfold select_time, series. cbv zeta.
  change (fun t0 : Q => fabs (fsub t0 t)) with distance.
  destruct (fltb lit_1em6 (fabs (fsub (min_by_key distance first others) t)));
    reflexivity.
Qed.

Lemma exact_time_request_witness :
  select_time (Some (5 # 10)) [0; 1 # 10; 25 # 100; 5 # 10] = ([], Return (5 # 10)) /\
  select_time (Some (5 # 10)) [0; 1 # 10; 25 # 100; 5 # 10] =
    select_time None [0; 1 # 10; 25 # 100; 5 # 10].
Proof.
  destruct (exact_time_request (5 # 10) 0 [1 # 10; 25 # 100; 5 # 10])
    as (Hexact & Hlast).
  - simpl. auto.
  - intros x [<- | [<- | [<- | [<- | []]]]] Heq;
      solve [reflexivity | vm_compute in Heq; discriminate].
  - split; [exact Hexact | apply Hlast; reflexivity].
Defined.

Local Close Scope Q_scope.

(** ** The entry point, continued *)

Section MainFurther.
Context {F : Type} `{PyFloat F}.
Variable FOAMLIB_AVAILABLE : bool.
Variable float_of_string : string -> option F.

Lemma division_trace_prints_nothing (tr : list (event F)) :
  Forall is_division tr -> stdout_of tr = [] /\ stderr_of tr = [].
Proof.
  induction 1 as [| [site x y | l | l] tr Hev _ IH]; simpl; auto; destruct Hev.
Qed.

(** No evaluator of the [metrics] table writes a line to either stream,
    and none ends the process: an evaluator that fails raises an
    [Exception], which the handler of [main] reports (lines 112-399). *)
Theorem evaluators_only_compute (metric_name : string) (metric : evaluator)
    (case_reader : @CaseReader F) (case_dir : @CaseDir F) :
  metrics_get metric_name (metrics FOAMLIB_AVAILABLE float_of_string) = Some metric ->
  stdout_of (trace (metric case_reader case_dir)) = [] /\
  stderr_of (trace (metric case_reader case_dir)) = [] /\
  (forall e, result (metric case_reader case_dir) = Raise e ->
             is_Exception e = true).
Proof.
  intros Hget.
  destruct (metrics_get_divides_only FOAMLIB_AVAILABLE float_of_string metric_name
              metric case_reader case_dir Hget) as [Htr Hex].
  destruct (division_trace_prints_nothing _ Htr) as [Hout Herr].
  repeat split; assumption.
Qed.

Lemma metrics_get_cons (metric_name name : string) (f : @evaluator F)
    (table : list (string * @evaluator F)) :
  metrics_get metric_name ((name, f) :: table) =
  if String.eqb name metric_name then Some f else metrics_get metric_name table.
Proof. reflexivity. Qed.

(** The names the table answers to: the four metric names, spelled
    exactly. *)
Lemma metrics_get_names (metric_name : string) :
  metrics_get metric_name (metrics FOAMLIB_AVAILABLE float_of_string) = None <->
  ~ In metric_name
      ["combustion_efficiency"; "ch4_domain_average"; "pattern_factor";
       "temperature_rise"].
Proof.
  unfold metrics. rewrite !metrics_get_cons.
  change (metrics_get metric_name []) with (@None (@evaluator F)).
  destruct (String.eqb "combustion_efficiency" metric_name) eqn:H1;
    [apply String.eqb_eq in H1; subst; split; [discriminate | intros Hn; elim Hn; simpl; auto 10] |].
  destruct (String.eqb "ch4_domain_average" metric_name) eqn:H2;
    [apply String.eqb_eq in H2; subst; split; [discriminate | intros Hn; elim Hn; simpl; auto 10] |].
  destruct (String.eqb "pattern_factor" metric_name) eqn:H3;
    [apply String.eqb_eq in H3; subst; split; [discriminate | intros Hn; elim Hn; simpl; auto 10] |].
  destruct (String.eqb "temperature_rise" metric_name) eqn:H4;
    [apply String.eqb_eq in H4; subst; split; [discriminate | intros Hn; elim Hn; simpl; auto 10] |].
  apply String.eqb_neq in H1, H2, H3, H4.
  split; [| reflexivity]. intros _ [Heq | [Heq | [Heq | [Heq | []]]]]; congruence.
Qed.

(** The order in which [main] finds fault with a well-formed command line
    (lines 431-463): a missing case directory is reported whatever the
    metric name; an unknown metric name only for an existing directory,
    and the accepted names are the four of the table, spelled exactly; an
    empty time series only after both, whatever time was requested. *)
Theorem main_error_precedence (script path metric_name : string)
    (rest : list string) (filesystem : string -> @CaseDir F)
    (requested_time : option F) :
  let argv := script :: path :: metric_name :: rest in
  let case_dir := filesystem path in
  let reader :=
    match processor_dirs case_dir with
    | _ :: _ => decomposed_case case_dir
    | [] => reconstructed_case case_dir
    end in
  length rest <= 1 ->
  parse_time_argument float_of_string argv = ([], Return requested_time) ->
  (dir_exists case_dir = false ->
   run FOAMLIB_AVAILABLE float_of_string argv filesystem =
     failure_report [] FileNotFoundError) /\
  (dir_exists case_dir = true ->
   ~ In metric_name
       ["combustion_efficiency"; "ch4_domain_average"; "pattern_factor";
        "temperature_rise"] ->
   run FOAMLIB_AVAILABLE float_of_string argv filesystem =
     failure_report [] (ValueError (UnknownMetric metric_name))) /\
  (dir_exists case_dir = true ->
   In metric_name
       ["combustion_efficiency"; "ch4_domain_average"; "pattern_factor";
        "temperature_rise"] ->
   TimestepValues reader = [] ->
   run FOAMLIB_AVAILABLE float_of_string argv filesystem =
     failure_report [] (ValueError NoTimeSteps)).
Proof.
  intros argv case_dir reader Hrest Hparse.
  assert (Hargc : (Nat.ltb (length argv) 3 || Nat.ltb 4 (length argv))%bool = false).
  { unfold argv. destruct rest as [| r [| r' rest']]; simpl in *; try reflexivity.
    lia. }
  assert (Hbody : main_try FOAMLIB_AVAILABLE float_of_string argv filesystem =
            bind (parse_time_argument float_of_string argv)
              (fun requested_time =>
                 if negb (dir_exists case_dir) then raise FileNotFoundError
                 else
                   match metrics_get metric_name
                           (metrics FOAMLIB_AVAILABLE float_of_string) with
                   | None => raise (ValueError (UnknownMetric metric_name))
                   | Some metric =>
                       bind (select_time requested_time (TimestepValues reader))
                         (fun use_time =>
                            bind (metric
                                    (set_MeshRegions
                                       ["internalMesh"; "patch/inletAir";
                                        "patch/inletFuel"; "patch/outlet"]
                                       (UpdatePipeline reader use_time)) case_dir)
                              (fun value => emit (Stdout (ValueLine value))))
                   end)).
  { unfold main_try. rewrite Hargc. reflexivity. }
  unfold run, main. rewrite Hbody, (bind_silent_return _ _ _ Hparse).
  split; [| split].
  - intros Hdir. rewrite Hdir. reflexivity.
  - intros Hdir Hname. rewrite Hdir. simpl negb. cbv iota.
    rewrite (proj2 (metrics_get_names metric_name) Hname). reflexivity.
  - intros Hdir Hname Htimes. rewrite Hdir. simpl negb. cbv iota.
    destruct (metrics_get metric_name (metrics FOAMLIB_AVAILABLE float_of_string))
      as [metric |] eqn:Hmetric.
    + rewrite Htimes. reflexivity.
    + apply metrics_get_names in Hmetric. contradiction.
Qed.

(** A well-formed command line on an existing case with a known metric
    and a non-empty time series (lines 437-486): the metric is evaluated
    on the pipeline at the selected time, opened as a decomposed case when
    processor directories exist, with the four mesh regions requested.
    When the evaluator returns, the process prints the value alone on
    standard output and ends with status 0; when it raises, the exception
    is reported with status 1.  A time warning is all else that standard
    error may hold. *)
Theorem main_evaluates_metric (script path metric_name : string)
    (rest : list string) (filesystem : string -> @CaseDir F)
    (requested_time : option F) (metric : evaluator)
    (warnings : list (event F)) (use_time : F) :
  let argv := script :: path :: metric_name :: rest in
  let case_dir := filesystem path in
  let reader :=
    match processor_dirs case_dir with
    | _ :: _ => decomposed_case case_dir
    | [] => reconstructed_case case_dir
    end in
  let case_reader :=
    set_MeshRegions
      ["internalMesh"; "patch/inletAir"; "patch/inletFuel"; "patch/outlet"]
      (UpdatePipeline reader use_time) in
  length rest <= 1 ->
  parse_time_argument float_of_string argv = ([], Return requested_time) ->
  dir_exists case_dir = true ->
  metrics_get metric_name (metrics FOAMLIB_AVAILABLE float_of_string) = Some metric ->
  select_time requested_time (TimestepValues reader) = (warnings, Return use_time) ->
  run FOAMLIB_AVAILABLE float_of_string argv filesystem =
    match result (metric case_reader case_dir) with
    | Return value =>
        {| exit_code := 0; stdout := [ValueLine value];
           stderr := stderr_of warnings |}
    | Raise e => failure_report (stderr_of warnings) e
    end.
Proof.
  intros argv case_dir reader case_reader Hrest Hparse Hdir Hmetric Htime.
  assert (Hargc : (Nat.ltb (length argv) 3 || Nat.ltb 4 (length argv))%bool = false).
  { unfold argv. destruct rest as [| r [| r' rest']]; simpl in *; try reflexivity.
    lia. }
  assert (Hwarn : stdout_of warnings = []).
  { pose proof (select_time_quiet requested_time (TimestepValues reader)) as [Hq _].
    rewrite Htime in Hq. apply stdout_of_not_stdout, Hq. }
  destruct (metrics_get_divides_only FOAMLIB_AVAILABLE float_of_string metric_name
              metric case_reader case_dir Hmetric) as [Htr Hex].
  destruct (division_trace_prints_nothing _ Htr) as [Hout Herr].
  unfold run, main, main_try. rewrite Hargc.
  change (nth_error argv 1) with (Some path).
  change (nth_error argv 2) with (Some metric_name). cbv iota.
  rewrite (bind_silent_return _ _ _ Hparse).
  fold case_dir. rewrite Hdir. simpl negb. cbv iota. rewrite Hmetric.
  fold reader. rewrite (bind_return _ _ _ _ Htime). fold case_reader.
  destruct (metric case_reader case_dir) as [tr [value | e]]; simpl in *.
  - rewrite !stdout_of_app, !stderr_of_app, Hwarn, Hout, Herr. simpl.
    rewrite app_nil_r. reflexivity.
  - rewrite (Hex e eq_refl). simpl.
    rewrite !stdout_of_app, !stderr_of_app, Hwarn, Hout, Herr. simpl.
    rewrite app_nil_r. reflexivity.
Qed.
End MainFurther.

Section TimeArgument.
Context {F : Type}.
Variable float_of_string : string -> option F.

(** The text that [main] hands to [float] is what stands between the
    first and the second [=] of the fourth argument (line 427): for
    [--time=<text>] it is [<text>], and whatever follows a second [=] is
    dropped without complaint. *)
Theorem time_argument_text (script path metric_name text : string) :
  free_of "=" text = true ->
  let parsed :=
    match float_of_string text with
    | Some t => ([], Return (Some t))
    | None => ([], Raise (ValueError (CouldNotConvertToFloat text)))
    end in
  parse_time_argument float_of_string
    [script; path; metric_name; String.append "--time=" text] = parsed /\
  (forall dropped,
     parse_time_argument float_of_string
       [script; path; metric_name;
        String.append "--time=" (String.append text (String "=" dropped))] = parsed).
Proof.
  intros Hfree parsed.
  assert (Hparse : forall time_arg,
            startswith "--time=" time_arg = true ->
            nth_error (str_split "=" time_arg) 1 = Some text ->
            parse_time_argument float_of_string
              [script; path; metric_name; time_arg] = parsed).
  { intros time_arg Hstart Hnth. unfold parse_time_argument.
    cbn [length Nat.eqb].
    change (nth_error [script; path; metric_name; time_arg] 3) with (Some time_arg).
    cbv iota. rewrite Hstart, Hnth. subst parsed.
    unfold float_of_str, py_float. destruct (float_of_string text); reflexivity. }
  split.
  - apply Hparse.
    + apply startswith_spec. exists text. reflexivity.
    + change (String.append "--time=" text)
        with (String.append "--time" (String "=" text)).
      rewrite str_split_append by reflexivity.
      rewrite (str_split_free "=" text Hfree). reflexivity.
  - intros dropped. apply Hparse.
    + apply startswith_spec. eexists. reflexivity.
    + change (String.append "--time=" (String.append text (String "=" dropped)))
        with (String.append "--time"
                (String "=" (String.append text (String "=" dropped)))).
      rewrite str_split_append by reflexivity.
      rewrite (str_split_append "=" text dropped Hfree). reflexivity.
Qed.
End TimeArgument.

Lemma time_argument_text_witness :
  parse_time_argument parse_decimal
    ["compute_metric.py"; "case"; "pattern_factor"; "--time=0.1=junk"]
  = ([], Return (Some (1 # 10)%Q)).
Proof.
  destruct (time_argument_text parse_decimal "compute_metric.py" "case"
              "pattern_factor" "0.1") as (_ & Hdropped).
  - reflexivity.
  - exact (Hdropped "junk").
Defined.

Lemma evaluators_only_compute_witness :
  stdout_of (trace (get_pattern_factor true parse_decimal
                      (combustor 2 10 (300, 350) (1 # 10) 640 2)%Q
                      (ch4_case "value" (FNum (4 # 10)%Q)))) = [] /\
  stderr_of (trace (get_pattern_factor true parse_decimal
                      (combustor 2 10 (300, 350) (1 # 10) 640 2)%Q
                      (ch4_case "value" (FNum (4 # 10)%Q)))) = [].
Proof.
  destruct (evaluators_only_compute true parse_decimal "pattern_factor"
              (get_pattern_factor true parse_decimal)
              (combustor 2 10 (300, 350) (1 # 10) 640 2)%Q
              (ch4_case "value" (FNum (4 # 10)%Q)))
    as (Hout & Herr & _).
  - reflexivity.
  - split; assumption.
Defined.

(** A missing directory and an unknown metric name: the directory is
    what is reported. *)
Lemma main_error_precedence_witness :
  run true parse_decimal ["compute_metric.py"; "nowhere"; "pressure_loss"]
    (everywhere missing_case)
  = failure_report [] FileNotFoundError.
Proof.
  destruct (main_error_precedence true parse_decimal "compute_metric.py" "nowhere"
              "pressure_loss" [] (everywhere missing_case) None)
    as (Hmissing & _).
  - simpl. lia.
  - reflexivity.
  - apply Hmissing. reflexivity.
Defined.

(** The efficiency of the end-to-end case, through the entry point. *)
Lemma main_evaluates_metric_witness :
  run true parse_decimal ["compute_metric.py"; "case"; "combustion_efficiency"]
    one_case
  = {| exit_code := 0;
       stdout := [ValueLine (1 - 2 / 10 / (4 # 10))%Q];
       stderr := [] |}.
Proof.
  rewrite (main_evaluates_metric true parse_decimal "compute_metric.py" "case"
             "combustion_efficiency" [] one_case None
             (get_combustion_efficiency true parse_decimal) [] (1 # 10)%Q).
  - reflexivity.
  - simpl. lia.
  - reflexivity.
  - reflexivity.
  - reflexivity.
  - reflexivity.
Defined.

Lemma no_outlet_region_fails_witness :
  get_combustion_efficiency true parse_decimal
    (set_MeshRegions ["internalMesh"; "patch/inletAir"]
       (combustor 2 10 (300, 350) (1 # 10) 640 2)%Q)
    (ch4_case "value" (FNum (4 # 10)%Q))
  = ([], Raise (ValueError (OutletPatchNotFound ["internalMesh"; "patch/inletAir"]))).
Proof.
  destruct (no_outlet_region_fails true parse_decimal
              (set_MeshRegions ["internalMesh"; "patch/inletAir"]
                 (combustor 2 10 (300, 350) (1 # 10) 640 2)%Q)
              (ch4_case "value" (FNum (4 # 10)%Q))) as (_ & Hfails & _).
  destruct Hfails as [_ Hefficiency]; [reflexivity | exact Hefficiency].
Defined.
